(** * NER notebooks: data preparation, dataset and model wrappers

    A shallow embedding of the code authored in the notebooks
    [ber-ner-2.ipynb] and [albert-ner.ipynb] (and the evaluation copy of the
    ALBERT notebook): [readVocab], [handle], [BertNerDataset] and the
    [forward] methods of the model classes.

    Layout:
    - [Py]              the Python built-ins the notebooks call
                        ([str.strip], [str.split], indexing, [set], dict
                        comprehensions, exceptions);
    - [Tuples]          the tuples [readVocab] and [handle] return;
    - [Torch]           the tensor library, taken as a parameter;
    - [BertNerDataset]  the dataset class;
    - [Bert], [AlBert]  the definitions of the BERT and of the ALBERT
                        notebooks;
    - [Spec], [Examples], [ModelSpec]
                        the vocabulary of the statements and sample inputs;
    - the lemmas, and the main results on the data preparation, the model
      classes and the dataset. *)

From stdpp Require Import gmap list.
From Stdlib Require String Ascii.
Import String.StringSyntax.
From Equations Require Import Equations.

Local Open Scope nat_scope.

(* ===================================================================== *)
(** * Python built-ins                                                    *)
(* ===================================================================== *)

Module Py.

(** A Python 3 [str] is a sequence of Unicode code points. *)
Definition char : Type := N.
Definition str : Type := list N.

(** String literals of the notebooks ("[CLS]", "[SEP]", ...) are ASCII. *)
Fixpoint py (s : String.string) : str :=
  match s with
  | String.EmptyString => []
  | String.String a s' => Ascii.N_of_ascii a :: py s'
  end.

Arguments py s%_string_scope.

Definition space : char := 32%N.
Definition newline : char := 10%N.

(** [str.isspace] on one code point (CPython's [_PyUnicode_IsWhitespace]). *)
Definition isspace (c : char) : bool :=
  ((9 <=? c) && (c <=? 13) || (28 <=? c) && (c <=? 32)
   || (c =? 133) || (c =? 160) || (c =? 5760)
   || (8192 <=? c) && (c <=? 8202)
   || (c =? 8232) || (c =? 8233) || (c =? 8239) || (c =? 8287)
   || (c =? 12288))%N.

Fixpoint lstrip (s : str) : str :=
  match s with
  | [] => []
  | c :: s' => if isspace c then lstrip s' else s
  end.

Definition rstrip (s : str) : str := rev (lstrip (rev s)).

(** [s.strip()]: leading and trailing whitespace removed. *)
Definition strip (s : str) : str := rstrip (lstrip s).

(** [s.split(sep)] for a one-character separator: every occurrence of
    [sep] ends a field, empty fields are kept, and the result is never
    empty. *)
Fixpoint split (sep : char) (s : str) : list str :=
  match s with
  | [] => [[]]
  | c :: s' =>
      if (c =? sep)%N then [] :: split sep s'
      else match split sep s' with
           | w :: ws => (c :: w) :: ws
           | [] => [[c]]
           end
  end.

(** The exceptions the notebooks' code can raise. *)
Inductive exn : Type :=
| IndexError
| KeyError (key : str)
| ValueError
| TypeError
| AttributeError
| RuntimeError.

Inductive result (A : Type) : Type :=
| Ok (a : A)
| Raise (e : exn).
Arguments Ok {A} a.
Arguments Raise {A} e.

#[export] Instance result_ret : MRet result := fun _ a => Ok a.
#[export] Instance result_bind : MBind result := fun _ _ f m =>
  match m with
  | Ok a => f a
  | Raise e => Raise e
  end.

Definition returns {A} (m : result A) : Prop := ∃ a, m = Ok a.

(** [l[i]] for a non-negative literal index. *)
Definition getitem {A} (l : list A) (i : nat) : result A :=
  match l !! i with
  | Some x => Ok x
  | None => Raise IndexError
  end.

(** [d[k]] on a dict with string keys. *)
Definition subscript {V} (d : gmap str V) (k : str) : result V :=
  match d !! k with
  | Some v => Ok v
  | None => Raise (KeyError k)
  end.

(** [for x in xs: st = body(st, x)], stopping at the first exception. *)
Fixpoint for_each {S A} (body : S → A → result S) (st : S) (xs : list A)
  : result S :=
  match xs with
  | [] => Ok st
  | x :: xs' => st' ← body st x; for_each body st' xs'
  end.

(** [enumerate(xs)]. *)
Definition enumerate {A} (xs : list A) : list (nat * A) := imap pair xs.

(** A dict display or comprehension evaluates its items left to right and
    stores each one; a later item with the same key replaces the earlier. *)
Definition dict_of {K V} `{Countable K} (items : list (K * V)) : gmap K V :=
  foldl (λ d kv, <[kv.1 := kv.2]> d) ∅ items.

(** A Python [set] of strings.  Its iteration order is not specified by the
    language: it depends on the string hashes and on the sequence of
    insertions that built the set.  A set is therefore represented by that
    sequence of insertions, and the iteration order is a parameter
    [set_iter] of which only the language guarantees are known: iteration
    visits every member exactly once. *)
Definition pyset : Type := list str.

Class SetOrder : Type := {
  set_iter : pyset → list str;
  set_iter_NoDup : ∀ s, NoDup (set_iter s);
  set_iter_elem : ∀ s x, x ∈ set_iter s ↔ x ∈ s
}.

(** [set()], [set(xs)], [s.add(x)], [len(s)], and the mathematical set of
    members. *)
Definition set_empty : pyset := [].
Definition set_of_list (xs : list str) : pyset := xs.
Definition set_add (s : pyset) (x : str) : pyset := s ++ [x].
Definition set_len `{SetOrder} (s : pyset) : nat := length (set_iter s).
Definition members (s : pyset) : gset str := list_to_set s.

(** [while len(l) < bound: l.append(x)]. *)
Equations append_while_shorter {A} (bound : nat) (x : A) (l : list A)
  : list A by wf (bound - length l) lt :=
  append_while_shorter bound x l with decide (length l < bound) := {
    | left _ => append_while_shorter bound x (l ++ [x]);
    | right _ => l }.
Next Obligation. rewrite length_app. simpl. lia. Qed.

(** One admissible iteration order: first insertion first. *)
Definition insertion_order : SetOrder :=
  {| set_iter := remove_dups;
     set_iter_NoDup := NoDup_remove_dups;
     set_iter_elem := λ s x, elem_of_remove_dups s x |}.

End Py.

(* ===================================================================== *)
(** * Values shared by the notebooks                                      *)
(* ===================================================================== *)

(** The BERT and the ALBERT notebooks return tuples of the same shape from
    [readVocab] and [handle]; the tuples are given field names here. *)
Module Tuples.
Import Py.

(** The tuple returned by [readVocab]. *)
Record vocab_out : Type := {
  vocab : pyset;
  vocab2id : gmap str nat;
  id2vocab : gmap nat str;
  vocab_size : nat
}.

(** The local variables of the reading loop of [handle]. *)
Record reader : Type := {
  words : list (list str);
  labels : list (list str);
  label_list : pyset;
  word : list str;
  label : list str
}.

(** The tuple returned by [handle]. *)
Record handle_out : Type := {
  out_words : list (list str);
  out_labels : list (list str);
  out_label_list : pyset;
  label2id : gmap str nat;
  id2label : gmap nat str;
  label_size : nat;
  input_ids : list (list nat);
  label_ids : list (list nat)
}.

End Tuples.

(* ===================================================================== *)
(** * The tensor library                                                  *)
(* ===================================================================== *)

(** [torch], [torchcrf] and the pretrained encoders are not part of the
    notebooks: their types and calls are parameters of the development.
    A call may raise, and may advance the state of the library's default
    random generator. *)
Module Torch.
Import Py.

Class Types : Type := {
  Tensor : Type;
  Float : Type;
  Generator : Type;
  BertModel : Type;
  AlbertModel : Type;
  LSTM : Type;
  GRU : Type;
  MultiheadAttention : Type;
  CRF : Type
}.

(** The Python objects that flow through the [forward] methods. *)
#[local] Unset Elimination Schemes.
Inductive value `{Types} : Type :=
| VNone
| VInt (n : Z)
| VFloat (f : Float)
| VTensor (t : Tensor)
| VTuple (items : list value)
| VList (items : list value).
#[local] Set Elimination Schemes.

(** A computation that reads and advances the generator, or raises. *)
Definition torch `{Types} (A : Type) : Type :=
  Generator → result (A * Generator).

#[export] Instance torch_ret `{Types} : MRet torch := λ _ a g, Ok (a, g).
#[export] Instance torch_bind `{Types} : MBind torch := λ _ _ f m g,
  match m g with
  | Ok (a, g') => f a g'
  | Raise e => Raise e
  end.

Definition throw `{Types} {A} (e : exn) : torch A := λ _, Raise e.

Class Library `{Types} : Type := {
  (** calling a module: [self.bert(x)], [self.bilstm(y)], ... *)
  BertModel_call : BertModel → value → torch value;
  AlbertModel_call : AlbertModel → value → torch value;
  LSTM_call : LSTM → value → torch value;
  GRU_call : GRU → value → torch value;
  MultiheadAttention_call :
    MultiheadAttention → value → value → value → torch value;
  (** [self.crf(emissions, tags, reduction=r)] and [self.crf.decode] *)
  CRF_call : CRF → value → value → str → torch value;
  CRF_decode : CRF → value → torch value;
  (** tensor methods and operators *)
  permute : value → list Z → torch value;
  matmul : value → value → torch value;
  neg : value → torch value;
  shape : value → torch value;
  (** iterating over a tensor (for unpacking) *)
  unbind : Tensor → torch (list value);
  (** [Parameter(torch.empty(size))] and [nn.init.uniform_(w, a, b)] *)
  Parameter_empty : value → torch value;
  uniform_ : value → value → value → torch value;
  (** [math.sqrt(v)] and [1. / v] *)
  sqrt : value → torch value;
  reciprocal : value → torch value
}.

Section Language.
Context `{Library}.

(** Iterating over an object, as sequence unpacking does. *)
Definition iterate (v : value) : torch (list value) :=
  match v with
  | VTuple items | VList items => mret items
  | VTensor t => unbind t
  | VNone | VInt _ | VFloat _ => throw TypeError
  end.

(** [a, b = v] *)
Definition unpack2 (v : value) : torch (value * value) :=
  items ← iterate v;
  match items with
  | [a; b] => mret (a, b)
  | _ => throw ValueError
  end.

(** [a, b, c = v] *)
Definition unpack3 (v : value) : torch (value * value * value) :=
  items ← iterate v;
  match items with
  | [a; b; c] => mret (a, b, c)
  | _ => throw ValueError
  end.

End Language.
End Torch.

(* ===================================================================== *)
(** * The dataset class                                                   *)
(* ===================================================================== *)

(** [class BertNerDataset(tud.Dataset)]; the class has the same text in the
    three notebooks.  The stored tensors are two-dimensional integer
    tensors, given by their rows. *)
Module BertNerDataset.
Import Py.

Definition tensor2 : Type := list (list Z).

Record t : Type := {
  label_ids : tensor2;
  input_ids : tensor2
}.

Definition __init__ (input_ids label_ids : tensor2) : t :=
  {| label_ids := label_ids; input_ids := input_ids |}.

(** [len(tensor)]: the size of the first dimension. *)
Definition len (x : tensor2) : nat := length x.

(** [x[index,:]]: a negative index counts from the end, an index outside
    [-len(x) .. len(x)-1] raises. *)
Definition select_row (x : tensor2) (index : Z) : result (list Z) :=
  let n := Z.of_nat (len x) in
  if decide (0 ≤ index < n)%Z then getitem x (Z.to_nat index)
  else if decide (- n ≤ index < 0)%Z then getitem x (Z.to_nat (n + index))
  else Raise IndexError.

Definition __len__ (self : t) : nat := len (input_ids self).

(** The method returns its value together with the object it leaves. *)
Definition __getitem__ (self : t) (index : Z) : result (list Z * list Z) * t :=
  (a ← select_row (input_ids self) index;
   b ← select_row (label_ids self) index;
   Ok (a, b),
   self).

End BertNerDataset.

(* ===================================================================== *)
(** * The BERT notebook [ber-ner-2.ipynb]                                 *)
(* ===================================================================== *)

Module Bert.
Import Py Tuples.

Definition max_seq_length : nat := 202.

Section Preprocessing.
Context `{SetOrder}.

(** [readVocab(filepath)].  [vocab_txt] are the lines of the file at
    [filepath], [train_txt] the lines of "data/train.txt", as the file
    iterators yield them. *)
Definition readVocab (vocab_txt train_txt : list str) : result vocab_out :=
  let vocab := [] in
  vocab ← for_each (λ vocab line, Ok (vocab ++ [strip line])) vocab vocab_txt;
  vocab ← for_each (λ vocab line,
             if decide (strip line ≠ []) then
               w ← getitem (split space (strip line)) 0;
               Ok (vocab ++ [w])
             else Ok vocab) vocab train_txt;
  let vocab := set_of_list vocab in
  let vocab2id := dict_of ((λ '(i, data), (data, 1 + i)) <$> enumerate (set_iter vocab)) in
  let id2vocab := dict_of ((λ '(i, data), (1 + i, data)) <$> enumerate (set_iter vocab)) in
  Ok {| vocab := vocab; vocab2id := vocab2id; id2vocab := id2vocab;
        vocab_size := set_len vocab |}.

(** The body of [for index,line in enumerate(fp)]. *)
Definition read_line (st : reader) (line : str) : result reader :=
  if decide (strip line = []) then
    Ok {| words := words st ++ [word st];
          labels := labels st ++ [label st];
          label_list := label_list st;
          word := [];
          label := [] |}
  else
    let linesplit := split space (strip line) in
    w ← getitem linesplit 0;
    t ← getitem linesplit 1;
    Ok {| words := words st;
          labels := labels st;
          label_list := set_add (label_list st) t;
          word := word st ++ [w];
          label := label st ++ [t] |}.

(** The body of [for i in words] (with [table := vocab2id]) and of
    [for i in labels] (with [table := label2id]); the two loops of the
    source differ in the names only. *)
Definition encode (table : gmap str nat) (i : list str) : result (list nat) :=
  input_id ← mapM (subscript table) i;
  let input_id :=
    if decide (max_seq_length - 2 < length input_id)
    then take (max_seq_length - 2) input_id
    else input_id in
  cls ← subscript table (py "[CLS]");
  let input_id := cls :: input_id in
  let input_id := append_while_shorter (max_seq_length - 1) 0 input_id in
  sep ← subscript table (py "[SEP]");
  Ok (input_id ++ [sep]).

(** [handle(filepath)].  [fp] are the lines of the file at [filepath];
    [vocab2id] is the notebook global the function reads. *)
Definition handle (vocab2id : gmap str nat) (fp : list str) : result handle_out :=
  st ← for_each read_line
         {| words := []; labels := [];
            label_list := set_add (set_add set_empty (py "[CLS]")) (py "[SEP]");
            word := []; label := [] |} fp;
  let label2id :=
    dict_of ((λ '(i, data), (data, i + 1)) <$> enumerate (set_iter (label_list st))) in
  let id2label :=
    dict_of ((λ '(i, data), (1 + i, data)) <$> enumerate (set_iter (label_list st))) in
  input_ids ← mapM (encode vocab2id) (words st);
  label_ids ← mapM (encode label2id) (labels st);
  Ok {| out_words := words st; out_labels := labels st;
        out_label_list := label_list st; label2id := label2id;
        id2label := id2label; label_size := set_len (label_list st);
        input_ids := input_ids; label_ids := label_ids |}.

End Preprocessing.

(** [class BertCRFNer(nn.Module)] *)
Module BertCRFNer.
Section Class.
Import Torch.
Context `{Library}.

Record t : Type := { bert : BertModel; crf : CRF }.

Definition forward (self : t) (x : value) (tags : value) : torch value :=
  r ← BertModel_call (bert self) x;
  '(y, _) ← unpack2 r;
  match tags with
  | VNone =>
      output ← permute y [1; 0; 2]%Z;
      CRF_decode (crf self) output
  | _ =>
      l ← CRF_call (crf self) y tags (py "mean");
      neg l
  end.

End Class.
End BertCRFNer.

(** [class BertBiLSTMCRFNer(nn.Module)] *)
Module BertBiLSTMCRFNer.
Section Class.
Import Torch.
Context `{Library}.

Record t : Type := { bert : BertModel; bilstm : LSTM; crf : CRF }.

Definition forward (self : t) (x : value) (tags : value) : torch value :=
  r ← BertModel_call (bert self) x;
  '(y, _) ← unpack2 r;
  r ← LSTM_call (bilstm self) y;
  '(output, _) ← unpack2 r;
  match tags with
  | VNone =>
      output ← permute output [1; 0; 2]%Z;
      CRF_decode (crf self) output
  | _ =>
      l ← CRF_call (crf self) output tags (py "mean");
      neg l
  end.

End Class.
End BertBiLSTMCRFNer.

(** [class BertBiGRUCRFNer(nn.Module)] *)
Module BertBiGRUCRFNer.
Section Class.
Import Torch.
Context `{Library}.

Record t : Type := { bert : BertModel; bigru : GRU; crf : CRF }.

Definition forward (self : t) (x : value) (tags : value) : torch value :=
  r ← BertModel_call (bert self) x;
  '(y, _) ← unpack2 r;
  r ← GRU_call (bigru self) y;
  '(output, _) ← unpack2 r;
  match tags with
  | VNone =>
      output ← permute output [1; 0; 2]%Z;
      CRF_decode (crf self) output
  | _ =>
      l ← CRF_call (crf self) output tags (py "mean");
      neg l
  end.

End Class.
End BertBiGRUCRFNer.

(** [class SelfAttention(nn.Module)] *)
Module SelfAttention.
Section Class.
Import Torch.
Context `{Library}.

Record t : Type := { embed_dim : Z; selfattention : MultiheadAttention }.

Definition forward (self : t) (x : value) : torch value :=
  sh ← shape x;
  '(L, N, E) ← unpack3 sh;
  W1 ← Parameter_empty (VTuple [L; N; N]);
  W2 ← Parameter_empty (VTuple [L; N; N]);
  W3 ← Parameter_empty (VTuple [L; N; N]);
  root ← sqrt (VInt (embed_dim self));
  std ← reciprocal root;
  a ← neg std; W1 ← uniform_ W1 a std;
  a ← neg std; W2 ← uniform_ W2 a std;
  a ← neg std; W3 ← uniform_ W3 a std;
  query ← matmul W1 x;
  key ← matmul W2 x;
  value ← matmul W3 x;
  r ← MultiheadAttention_call (selfattention self) query key value;
  '(attn_output, _) ← unpack2 r;
  mret attn_output.

End Class.
End SelfAttention.

(** [class BertBiGRUSelfAttentionCRFNer(nn.Module)] *)
Module BertBiGRUSelfAttentionCRFNer.
Section Class.
Import Torch.
Context `{Library}.

Record t : Type := {
  bert : BertModel;
  bigru : GRU;
  selfattention : SelfAttention.t;
  crf : CRF
}.

Definition forward (self : t) (x : value) (tags : value) : torch value :=
  r ← BertModel_call (bert self) x;
  '(y, _) ← unpack2 r;
  r ← GRU_call (bigru self) y;
  '(output, _) ← unpack2 r;
  output ← SelfAttention.forward (selfattention self) output;
  match tags with
  | VNone =>
      output ← permute output [1; 0; 2]%Z;
      CRF_decode (crf self) output
  | _ =>
      l ← CRF_call (crf self) output tags (py "mean");
      neg l
  end.

End Class.
End BertBiGRUSelfAttentionCRFNer.

End Bert.

(* ===================================================================== *)
(** * The ALBERT notebooks                                                *)
(* ===================================================================== *)

(** [albert-ner.ipynb] and its evaluation copy define [readVocab] and
    [handle] again; the definitions below are taken from that text. *)
Module AlBert.
Import Py Tuples.

Definition max_seq_length : nat := 202.

Section Preprocessing.
Context `{SetOrder}.

(** [readVocab(filepath)].  [vocab_txt] are the lines of the file at
    [filepath], [train_txt] the lines of "data/train.txt", as the file
    iterators yield them. *)
Definition readVocab (vocab_txt train_txt : list str) : result vocab_out :=
  let vocab := [] in
  vocab ← for_each (λ vocab line, Ok (vocab ++ [strip line])) vocab vocab_txt;
  vocab ← for_each (λ vocab line,
             if decide (strip line ≠ []) then
               w ← getitem (split space (strip line)) 0;
               Ok (vocab ++ [w])
             else Ok vocab) vocab train_txt;
  let vocab := set_of_list vocab in
  let vocab2id := dict_of ((λ '(i, data), (data, 1 + i)) <$> enumerate (set_iter vocab)) in
  let id2vocab := dict_of ((λ '(i, data), (1 + i, data)) <$> enumerate (set_iter vocab)) in
  Ok {| vocab := vocab; vocab2id := vocab2id; id2vocab := id2vocab;
        vocab_size := set_len vocab |}.

(** The body of [for index,line in enumerate(fp)]. *)
Definition read_line (st : reader) (line : str) : result reader :=
  if decide (strip line = []) then
    Ok {| words := words st ++ [word st];
          labels := labels st ++ [label st];
          label_list := label_list st;
          word := [];
          label := [] |}
  else
    let linesplit := split space (strip line) in
    w ← getitem linesplit 0;
    t ← getitem linesplit 1;
    Ok {| words := words st;
          labels := labels st;
          label_list := set_add (label_list st) t;
          word := word st ++ [w];
          label := label st ++ [t] |}.

(** The body of [for i in words] (with [table := vocab2id]) and of
    [for i in labels] (with [table := label2id]); the two loops of the
    source differ in the names only. *)
Definition encode (table : gmap str nat) (i : list str) : result (list nat) :=
  input_id ← mapM (subscript table) i;
  let input_id :=
    if decide (max_seq_length - 2 < length input_id)
    then take (max_seq_length - 2) input_id
    else input_id in
  cls ← subscript table (py "[CLS]");
  let input_id := cls :: input_id in
  let input_id := append_while_shorter (max_seq_length - 1) 0 input_id in
  sep ← subscript table (py "[SEP]");
  Ok (input_id ++ [sep]).

(** [handle(filepath)].  [fp] are the lines of the file at [filepath];
    [vocab2id] is the notebook global the function reads. *)
Definition handle (vocab2id : gmap str nat) (fp : list str) : result handle_out :=
  st ← for_each read_line
         {| words := []; labels := [];
            label_list := set_add (set_add set_empty (py "[CLS]")) (py "[SEP]");
            word := []; label := [] |} fp;
  let label2id :=
    dict_of ((λ '(i, data), (data, i + 1)) <$> enumerate (set_iter (label_list st))) in
  let id2label :=
    dict_of ((λ '(i, data), (1 + i, data)) <$> enumerate (set_iter (label_list st))) in
  input_ids ← mapM (encode vocab2id) (words st);
  label_ids ← mapM (encode label2id) (labels st);
  Ok {| out_words := words st; out_labels := labels st;
        out_label_list := label_list st; label2id := label2id;
        id2label := id2label; label_size := set_len (label_list st);
        input_ids := input_ids; label_ids := label_ids |}.

End Preprocessing.

(** [class AlBertCRFNer(nn.Module)] *)
Module AlBertCRFNer.
Section Class.
Import Torch.
Context `{Library}.

Record t : Type := { albert : AlbertModel; crf : CRF }.

Definition forward (self : t) (x : value) (tags : value) : torch value :=
  r ← AlbertModel_call (albert self) x;
  '(y, _) ← unpack2 r;
  match tags with
  | VNone =>
      output ← permute y [1; 0; 2]%Z;
      CRF_decode (crf self) output
  | _ =>
      l ← CRF_call (crf self) y tags (py "mean");
      neg l
  end.

End Class.
End AlBertCRFNer.

(** [class AlBertBiLSTMCRFNer(nn.Module)] *)
Module AlBertBiLSTMCRFNer.
Section Class.
Import Torch.
Context `{Library}.

Record t : Type := { albert : AlbertModel; bilstm : LSTM; crf : CRF }.

Definition forward (self : t) (x : value) (tags : value) : torch value :=
  r ← AlbertModel_call (albert self) x;
  '(y, _) ← unpack2 r;
  r ← LSTM_call (bilstm self) y;
  '(output, _) ← unpack2 r;
  match tags with
  | VNone =>
      output ← permute output [1; 0; 2]%Z;
      CRF_decode (crf self) output
  | _ =>
      l ← CRF_call (crf self) output tags (py "mean");
      neg l
  end.

End Class.
End AlBertBiLSTMCRFNer.

(** [class AlBertBiGRUCRFNer(nn.Module)] *)
Module AlBertBiGRUCRFNer.
Section Class.
Import Torch.
Context `{Library}.

Record t : Type := { albert : AlbertModel; bigru : GRU; crf : CRF }.

Definition forward (self : t) (x : value) (tags : value) : torch value :=
  r ← AlbertModel_call (albert self) x;
  '(y, _) ← unpack2 r;
  r ← GRU_call (bigru self) y;
  '(output, _) ← unpack2 r;
  match tags with
  | VNone =>
      output ← permute output [1; 0; 2]%Z;
      CRF_decode (crf self) output
  | _ =>
      l ← CRF_call (crf self) output tags (py "mean");
      neg l
  end.

End Class.
End AlBertBiGRUCRFNer.

(** [class SelfAttention(nn.Module)] *)
Module SelfAttention.
Section Class.
Import Torch.
Context `{Library}.

Record t : Type := { embed_dim : Z; selfattention : MultiheadAttention }.

Definition forward (self : t) (x : value) : torch value :=
  sh ← shape x;
  '(L, N, E) ← unpack3 sh;
  W1 ← Parameter_empty (VTuple [L; N; N]);
  W2 ← Parameter_empty (VTuple [L; N; N]);
  W3 ← Parameter_empty (VTuple [L; N; N]);
  root ← sqrt (VInt (embed_dim self));
  std ← reciprocal root;
  a ← neg std; W1 ← uniform_ W1 a std;
  a ← neg std; W2 ← uniform_ W2 a std;
  a ← neg std; W3 ← uniform_ W3 a std;
  query ← matmul W1 x;
  key ← matmul W2 x;
  value ← matmul W3 x;
  r ← MultiheadAttention_call (selfattention self) query key value;
  '(attn_output, _) ← unpack2 r;
  mret attn_output.

End Class.
End SelfAttention.

(** [class AlBertBiGRUSelfAttentionCRFNer(nn.Module)] of [albert-ner.ipynb]:
    here the source binds [y = self.albert(x)], without unpacking. *)
Module AlBertBiGRUSelfAttentionCRFNer.
Section Class.
Import Torch.
Context `{Library}.

Record t : Type := {
  albert : AlbertModel;
  bigru : GRU;
  selfattention : SelfAttention.t;
  crf : CRF
}.

Definition forward (self : t) (x : value) (tags : value) : torch value :=
  y ← AlbertModel_call (albert self) x;
  r ← GRU_call (bigru self) y;
  '(output, _) ← unpack2 r;
  output ← SelfAttention.forward (selfattention self) output;
  match tags with
  | VNone =>
      output ← permute output [1; 0; 2]%Z;
      CRF_decode (crf self) output
  | _ =>
      l ← CRF_call (crf self) output tags (py "mean");
      neg l
  end.

End Class.
End AlBertBiGRUSelfAttentionCRFNer.

(** [class AlBertBiGRUSelfAttentionCRFNer(nn.Module)] of the later revision of
    the ALBERT notebook, which binds [y,_ = self.albert(x)]. *)
Module AlBertBiGRUSelfAttentionCRFNer_rev.
Section Class.
Import Torch.
Context `{Library}.

Record t : Type := {
  albert : AlbertModel;
  bigru : GRU;
  selfattention : SelfAttention.t;
  crf : CRF
}.

Definition forward (self : t) (x : value) (tags : value) : torch value :=
  r ← AlbertModel_call (albert self) x;
  '(y, _) ← unpack2 r;
  r ← GRU_call (bigru self) y;
  '(output, _) ← unpack2 r;
  output ← SelfAttention.forward (selfattention self) output;
  match tags with
  | VNone =>
      output ← permute output [1; 0; 2]%Z;
      CRF_decode (crf self) output
  | _ =>
      l ← CRF_call (crf self) output tags (py "mean");
      neg l
  end.

End Class.
End AlBertBiGRUSelfAttentionCRFNer_rev.

End AlBert.

(* ===================================================================== *)
(** * The cells between [handle] and the models                           *)
(* ===================================================================== *)

(** [input_ids = torch.Tensor(input_ids).long()] (and the same for
    [label_ids]), then
    [dataset = BertNerDataset(input_ids[:8000],label_ids[:8000])] and
    [dataloader = tud.DataLoader(dataset, batch_size=BATCH_SIZE,
    shuffle=True,num_workers=0)]; the cells have the same text in the three
    notebooks. *)
Module Cells.
Import Py Tuples BertNerDataset.

Definition BATCH_SIZE : nat := 8.

(** What a [tud.DataLoader] holds of its arguments. *)
Record DataLoader : Type := {
  dataset : BertNerDataset.t;
  batch_size : nat
}.

(** [tud.DataLoader(dataset, batch_size=batch_size, shuffle=True,
    num_workers=0)]: with [shuffle=True] the loader builds a random sampler
    over the dataset, which asks for [len(dataset)] and raises
    [ValueError] when it is not positive; the batch sampler then raises
    [ValueError] for a batch size that is not positive. *)
Definition DataLoader_shuffled (data : BertNerDataset.t) (size : nat) :
    result DataLoader :=
  if decide (__len__ data = 0) then Raise ValueError
  else if decide (size = 0) then Raise ValueError
  else Ok (Build_DataLoader data size).

Section Tensors.

(** [torch.Tensor] makes a tensor of 32-bit floats and [.long()] turns it
    into integers: [long_of n] is what the integer [n] has become. *)
Variable long_of : nat → Z.

(** [torch.Tensor(data).long()] for a list of lists: rows of different
    lengths raise [ValueError]. *)
Definition Tensor_long (data : list (list nat)) : result tensor2 :=
  match data with
  | [] => Ok []
  | row :: rest =>
      if decide (Forall (λ r, length r = length row) rest)
      then Ok ((λ r : list nat, long_of <$> r) <$> data : list (list Z))
      else Raise ValueError
  end.

(** [x[:n]] *)
Definition slice_to (n : nat) (x : tensor2) : tensor2 := take n x.

(** The two cells, from the tuple [handle] returned: the dataset and the
    loader they leave. *)
Definition make_dataset (h : handle_out) :
    result (BertNerDataset.t * DataLoader) :=
  input_ids ← Tensor_long (Tuples.input_ids h);
  label_ids ← Tensor_long (Tuples.label_ids h);
  let dataset := __init__ (slice_to (Z.to_nat 8000) input_ids)
                   (slice_to (Z.to_nat 8000) label_ids) in
  dataloader ← DataLoader_shuffled dataset BATCH_SIZE;
  Ok (dataset, dataloader).

End Tensors.
End Cells.

(* ===================================================================== *)
(** * The training cells                                                  *)
(* ===================================================================== *)

(** What the training cells use of [torch] and [pandas].  Modules,
    optimizers and loaders are references to objects of the library; the
    state threaded through [torch] stands here for everything those
    objects hold. *)
Module Training.
Import Py Torch.

(** A [DataFrame] with a single column: its rows, label and value, in the
    order in which they were added. *)
Definition frame `{Types} : Type := list (Z * value).

(** [df.loc[r, c] = v]: the value of an existing row is replaced, a new
    row is added at the end. *)
Fixpoint loc_set `{Types} (df : frame) (r : Z) (v : value) : frame :=
  match df with
  | [] => [(r, v)]
  | (r', v') :: rest =>
      if decide (r' = r) then (r, v) :: rest else (r', v') :: loc_set rest r v
  end.

Class Trainer `{Library} (Model : Type) : Type := {
  Optimizer : Type;
  DataLoader : Type;
  (** [torch.optim.Adam(model.parameters(), lr=0.05)] *)
  Adam : Model → torch Optimizer;
  (** the batches of one pass [enumerate(dataloader)] *)
  batches : DataLoader → torch (list (value * value));
  (** [loss.item()], [optimizer.zero_grad()], [loss.backward()],
      [optimizer.step()] *)
  item : value → torch value;
  zero_grad : Optimizer → torch ();
  backward : value → torch ();
  step : Optimizer → torch ();
  (** [torch.save(model.state_dict(), path)] *)
  save : Model → str → torch ()
}.

Section Loops.
Context `{Library}.

(** An exception of the notebook's own code inside a library computation. *)
Definition lift {A} (m : result A) : torch A :=
  λ g, match m with Ok a => Ok (a, g) | Raise e => Raise e end.

(** [for x in xs: st = body(st, x)] over library computations. *)
Fixpoint for_in {S A} (body : S → A → torch S) (st : S) (xs : list A)
  : torch S :=
  match xs with
  | [] => mret st
  | x :: xs' => st' ← body st x; for_in body st' xs'
  end.

End Loops.
End Training.

(** The training cell of [ber-ner-2.ipynb]. *)
Module BertTraining.
Import Py Torch Training.

Definition EPOCH : nat := 1.

Definition nameList : list str :=
  [py "Bert-CRF"; py "Bert-BiLSTM-CRF"; py "Bert-BiGRU-CRF";
   py "Bert-BiGRU-selfattentin-CRF"].

Section Cell.
Context `{Library}.

(** The objects of [modelList]. *)
Inductive model : Type :=
| CRFNer (m : Bert.BertCRFNer.t)
| BiLSTMCRFNer (m : Bert.BertBiLSTMCRFNer.t)
| BiGRUCRFNer (m : Bert.BertBiGRUCRFNer.t)
| BiGRUSelfAttentionCRFNer (m : Bert.BertBiGRUSelfAttentionCRFNer.t).

(** [model(x, tags = t)] *)
Definition call (m : model) (x tags : value) : torch value :=
  match m with
  | CRFNer m => Bert.BertCRFNer.forward m x tags
  | BiLSTMCRFNer m => Bert.BertBiLSTMCRFNer.forward m x tags
  | BiGRUCRFNer m => Bert.BertBiGRUCRFNer.forward m x tags
  | BiGRUSelfAttentionCRFNer m =>
      Bert.BertBiGRUSelfAttentionCRFNer.forward m x tags
  end.

Context `{!Trainer model}.

(** The body of [for step,(input_ids,label_ids) in enumerate(dataloader)]. *)
Definition train_step (index : nat) (m : model) (optimizer : Optimizer)
    (epoch : nat) (lossDataFrame : frame)
    (it : nat * (value * value)) : torch frame :=
  let '(step_, (input_ids, label_ids)) := it in
  loss ← call m input_ids label_ids;
  lossDataFrame ←
    (if decide (0 = (step_ + 1) mod 10) then
       v ← item loss;
       name ← lift (getitem nameList index);
       let lossDataFrame :=
         loc_set lossDataFrame
           (Z.of_nat ((epoch + 1) * ((step_ + 1) / 10)) - 1)%Z v in
       _ ← lift (getitem nameList index);
       _ ← item loss;
       mret lossDataFrame
     else mret lossDataFrame);
  _ ← zero_grad optimizer;
  _ ← backward loss;
  _ ← step optimizer;
  mret lossDataFrame.

(** The body of [for epoch in range(EPOCH)]. *)
Definition train_epoch (index : nat) (m : model) (optimizer : Optimizer)
    (dataloader : DataLoader) (lossDataFrame : frame) (epoch : nat)
  : torch frame :=
  bs ← batches dataloader;
  for_in (train_step index m optimizer epoch) lossDataFrame (enumerate bs).

(** The body of [for index,model in enumerate(modelList)].  [files] are
    the loss tables written so far by [to_csv], with their names. *)
Definition train_model (dataloader : DataLoader) (files : list (str * frame))
    (it : nat * model) : torch (list (str * frame)) :=
  let '(index, m) := it in
  if decide (index ≠ 2) then mret files
  else
    let lossDataFrame : frame := [] in
    optimizer ← Adam m;
    lossDataFrame ←
      for_in (train_epoch index m optimizer dataloader) lossDataFrame
        (seq 0 EPOCH);
    name ← lift (getitem nameList index);
    _ ← save m (name ++ py ".pt");
    name ← lift (getitem nameList index);
    mret (files ++ [(name ++ py "_loss_of_ner.csv", lossDataFrame)]).

Definition training_cell (modelList : list model) (dataloader : DataLoader)
  : torch (list (str * frame)) :=
  for_in (train_model dataloader) [] (enumerate modelList).

End Cell.
End BertTraining.

(** The training cell of [albert-ner.ipynb]: every model of [modelList] is
    trained, and the rows of the loss table are labelled from 1. *)
Module AlBertTraining.
Import Py Torch Training.

Definition EPOCH : nat := 1.

Definition nameList : list str :=
  [py "AlBert-CRF"; py "AlBert-BiLSTM-CRF"; py "AlBert-BiGRU-CRF";
   py "AlBert-BiGRU-selfattentin-CRF"].

Section Cell.
Context `{Library}.

(** The objects of [modelList]. *)
Inductive model : Type :=
| CRFNer (m : AlBert.AlBertCRFNer.t)
| BiLSTMCRFNer (m : AlBert.AlBertBiLSTMCRFNer.t)
| BiGRUCRFNer (m : AlBert.AlBertBiGRUCRFNer.t)
| BiGRUSelfAttentionCRFNer (m : AlBert.AlBertBiGRUSelfAttentionCRFNer.t).

(** [model(x, t)] *)
Definition call (m : model) (x tags : value) : torch value :=
  match m with
  | CRFNer m => AlBert.AlBertCRFNer.forward m x tags
  | BiLSTMCRFNer m => AlBert.AlBertBiLSTMCRFNer.forward m x tags
  | BiGRUCRFNer m => AlBert.AlBertBiGRUCRFNer.forward m x tags
  | BiGRUSelfAttentionCRFNer m =>
      AlBert.AlBertBiGRUSelfAttentionCRFNer.forward m x tags
  end.

Context `{!Trainer model}.

(** The body of [for step,(input_ids,label_ids) in enumerate(dataloader)]. *)
Definition train_step (index : nat) (m : model) (optimizer : Optimizer)
    (epoch : nat) (lossDataFrame : frame)
    (it : nat * (value * value)) : torch frame :=
  let '(step_, (input_ids, label_ids)) := it in
  loss ← call m input_ids label_ids;
  lossDataFrame ←
    (if decide (0 = (step_ + 1) mod 10) then
       v ← item loss;
       name ← lift (getitem nameList index);
       let lossDataFrame :=
         loc_set lossDataFrame
           (Z.of_nat ((epoch + 1) * ((step_ + 1) / 10))) v in
       _ ← lift (getitem nameList index);
       _ ← item loss;
       mret lossDataFrame
     else mret lossDataFrame);
  _ ← zero_grad optimizer;
  _ ← backward loss;
  _ ← step optimizer;
  mret lossDataFrame.

(** The body of [for epoch in range(EPOCH)]. *)
Definition train_epoch (index : nat) (m : model) (optimizer : Optimizer)
    (dataloader : DataLoader) (lossDataFrame : frame) (epoch : nat)
  : torch frame :=
  bs ← batches dataloader;
  for_in (train_step index m optimizer epoch) lossDataFrame (enumerate bs).

(** The body of [for index,model in enumerate(modelList)]. *)
Definition train_model (dataloader : DataLoader) (files : list (str * frame))
    (it : nat * model) : torch (list (str * frame)) :=
  let '(index, m) := it in
  optimizer ← Adam m;
  let lossDataFrame : frame := [] in
  lossDataFrame ←
    for_in (train_epoch index m optimizer dataloader) lossDataFrame
      (seq 0 EPOCH);
  name ← lift (getitem nameList index);
  _ ← save m (name ++ py ".pt");
  name ← lift (getitem nameList index);
  mret (files ++ [(name ++ py "_loss_of_ner.csv", lossDataFrame)]).

Definition training_cell (modelList : list model) (dataloader : DataLoader)
  : torch (list (str * frame)) :=
  for_in (train_model dataloader) [] (enumerate modelList).

End Cell.
End AlBertTraining.

(* ===================================================================== *)
(** * Vocabulary of the statements                                        *)
(* ===================================================================== *)

Module Spec.
Import Py Tuples.

(** A line is blank when nothing is left of it after [strip]. *)
Definition blank (line : str) : Prop := strip line = [].

#[global] Instance blank_dec (line : str) : Decision (blank line).
Proof. unfold blank. apply _. Defined.

(** The fields of a line, and the first and the second of them. *)
Definition fields (line : str) : list str := split space (strip line).
Definition first_field (line : str) : str := default [] (fields line !! 0).
Definition second_field (line : str) : str := default [] (fields line !! 1).

(** The strings [readVocab] collects: the stripped lines of the vocabulary
    file, then the first fields of the non-blank lines of the training
    file. *)
Definition collected (vocab_txt train_txt : list str) : list str :=
  (strip <$> vocab_txt) ++ (first_field <$> filter (λ l, ¬ blank l) train_txt).

(** Sentences: the field [f] of the lines accumulated up to each blank
    line.  [cur] is the sentence being accumulated. *)
Fixpoint group (f : str → str) (cur : list str) (fp : list str)
  : list (list str) :=
  match fp with
  | [] => []
  | line :: rest =>
      if decide (blank line) then cur :: group f [] rest
      else group f (cur ++ [f line]) rest
  end.

(** The part of a file up to and including its last blank line. *)
Fixpoint terminated (fp : list str) : list str :=
  match fp with
  | [] => []
  | line :: rest =>
      if decide (blank line) then line :: terminated rest
      else match terminated rest with
           | [] => []
           | t => line :: t
           end
  end.

(** A table that numbers the members of a set from 1, densely and
    injectively, in the set's iteration order. *)
Definition dense_table `{SetOrder} (s : pyset) (d : gmap str nat) : Prop :=
  dom d = members s
  ∧ size (dom d) = set_len s
  ∧ (∀ i data, set_iter s !! i = Some data → d !! data = Some (1 + i))
  ∧ (∀ k1 k2 v, d !! k1 = Some v → d !! k2 = Some v → k1 = k2)
  ∧ (∀ v, (∃ k, d !! k = Some v) ↔ 1 ≤ v ≤ size (dom d)).

(** The fixed-length encoding of a sentence under a table: the id of
    "[CLS]", the ids of at most [max_seq_length - 2] tokens, zeros, and the
    id of "[SEP]". *)
Definition encoding (table : gmap str nat) (sentence : list str)
    (ids : list nat) : Prop :=
  ∃ toks cls sep,
    Forall2 (λ w t, table !! w = Some t) sentence toks
    ∧ table !! py "[CLS]" = Some cls
    ∧ table !! py "[SEP]" = Some sep
    ∧ ids = [cls] ++ take (Bert.max_seq_length - 2) toks
            ++ replicate (Bert.max_seq_length - 2 - length toks) 0
            ++ [sep].

(** The items [(data, f i)] of a comprehension over [enumerate(l)]. *)
Definition numbered (f : nat → nat) (l : list str) : list (str * nat) :=
  (λ '(i, data), (data, f i)) <$> enumerate l.

(** The labels [handle] collects, in the order of their insertion, and the
    table it builds from them. *)
Definition collected_labels (fp : list str) : pyset :=
  [py "[CLS]"; py "[SEP]"] ++ (second_field <$> filter (λ l, ¬ blank l) fp).

Definition label_table `{SetOrder} (fp : list str) : gmap str nat :=
  dict_of (numbered (λ i, i + 1) (set_iter (collected_labels fp))).

(** The variables of [handle] before its reading loop. *)
Definition reader0 : reader :=
  {| words := []; labels := [];
     label_list := set_add (set_add set_empty (py "[CLS]")) (py "[SEP]");
     word := []; label := [] |}.

(** The layout of an encoded sequence: the "[CLS]" id, ids that are at
    least 1, a block of zeros, and the "[SEP]" id in the last position;
    the zeros are exactly the positions between the last real id and the
    last position. *)
Definition layout (table : gmap str nat) (ids : list nat) : Prop :=
  ∃ cls real sep,
    table !! py "[CLS]" = Some cls
    ∧ table !! py "[SEP]" = Some sep
    ∧ ids = [cls] ++ real
            ++ replicate (Bert.max_seq_length - 2 - length real) 0 ++ [sep]
    ∧ length real ≤ Bert.max_seq_length - 2
    ∧ Forall (λ t, 1 ≤ t) ([cls] ++ real ++ [sep])
    ∧ length ids = Bert.max_seq_length
    ∧ ids !! (Bert.max_seq_length - 1) = Some sep
    ∧ (∀ i, ids !! i = Some 0 ↔ length real < i < Bert.max_seq_length - 1).

(** A line of a text file, with its line end. *)
Definition line (s : String.string) : str := py s ++ [newline].
Arguments line s%_string_scope.

End Spec.

(* ===================================================================== *)
(** * Sample files                                                        *)
(* ===================================================================== *)

Module Examples.
Import Py Tuples Spec.

(** A vocabulary file and a training file; the last sentence of the
    training file is not followed by a blank line. *)
Definition vocab_txt : list str :=
  [line "[PAD]"; line "[CLS]"; line "[SEP]"; line "a"].

Definition train_txt : list str :=
  [line "a O"; line "b B-X"; line ""; line "c O"; line ""; line "d I-X"].

(** The table [readVocab] builds from them when sets iterate in insertion
    order. *)
Definition table : gmap str nat :=
  match Bert.readVocab (H:=insertion_order) vocab_txt train_txt with
  | Ok r => vocab2id r
  | Raise _ => ∅
  end.

End Examples.

(* ===================================================================== *)
(** * Vocabulary of the statements about the models                       *)
(* ===================================================================== *)

Module ModelSpec.
Import Py Torch.

Section Heads.
Context `{Library}.

(** What [forward] is to do with the output of the layers below the
    CRF: with tags, the negated value of the CRF called
    with [reduction='mean']; without, the CRF decoding of the output with
    its first two axes exchanged. *)
Definition crf_head (crf : CRF) (tags output : value) : torch value :=
  match tags with
  | VNone => permute output [1; 0; 2]%Z ≫= CRF_decode crf
  | _ => CRF_call crf output tags (py "mean") ≫= neg
  end.

(** The first element of what a layer returns. *)
Definition first_of (m : torch value) : torch value :=
  r ← m; p ← unpack2 r; mret p.1.

Definition raises {A} (m : torch A) (g : Generator) : Prop :=
  ∃ e, m g = Raise e.

End Heads.

(** A small instance of the library, for evaluation: tensors are integers,
    encoders and recurrent layers return pairs, and a recurrent layer
    called with anything but a tensor raises, as [torch.nn.GRU] does when
    it asks its input for its size. *)
#[local] Instance toy_types : Types :=
  {| Tensor := Z; Float := Z; Generator := nat;
     BertModel := unit; AlbertModel := unit; LSTM := unit; GRU := unit;
     MultiheadAttention := unit; CRF := unit |}.

Definition toy_layer (v : value) : torch value :=
  λ g, match v with
       | VTensor t => Ok (VTuple [VTensor t; VTensor t], g)
       | _ => Raise AttributeError
       end.

Definition toy_encoder (v : value) : torch value :=
  λ g, Ok (VTuple [v; v], g).

Definition toy_tensor_op (v : value) : torch value :=
  λ g, match v with
       | VTensor t => Ok (VTensor t, g)
       | _ => Raise TypeError
       end.

#[local] Instance toy : Library :=
  {| BertModel_call := λ _, toy_encoder;
     AlbertModel_call := λ _, toy_encoder;
     LSTM_call := λ _, toy_layer;
     GRU_call := λ _, toy_layer;
     MultiheadAttention_call := λ _ q _ _, toy_layer q;
     CRF_call := λ _ emissions _ _, toy_tensor_op emissions;
     CRF_decode := λ _ emissions g,
       match emissions with
       | VTensor t => Ok (VList [VList [VInt t]], g)
       | _ => Raise TypeError
       end;
     permute := λ v _, toy_tensor_op v;
     matmul := λ w x g,
       match w, x with
       | VTensor a, VTensor b => Ok (VTensor (a * b)%Z, g)
       | _, _ => Raise TypeError
       end;
     neg := λ v g,
       match v with
       | VTensor t => Ok (VTensor (- t)%Z, g)
       | VFloat f => Ok (VFloat (- f)%Z, g)
       | _ => Raise TypeError
       end;
     shape := λ v g,
       match v with
       | VTensor _ => Ok (VTuple [VInt 1%Z; VInt 1%Z; VInt 1%Z], g)
       | _ => Raise AttributeError
       end;
     unbind := λ _ _, Raise TypeError;
     Parameter_empty := λ _ g, Ok (VTensor 0%Z, g);
     uniform_ := λ _ _ _ g, Ok (VTensor (Z.of_nat g), S g);
     sqrt := λ v g,
       match v with
       | VInt n => Ok (VFloat (Z.sqrt n), g)
       | _ => Raise TypeError
       end;
     reciprocal := λ v g,
       match v with
       | VFloat f => if decide (f = 0%Z) then Raise RuntimeError
                     else Ok (VFloat (1 / f)%Z, g)
       | _ => Raise TypeError
       end |}.

(** The self-attention model, at both revisions, over that instance. *)
Definition toy_attention : AlBert.SelfAttention.t :=
  {| AlBert.SelfAttention.embed_dim := 768;
     AlBert.SelfAttention.selfattention := () |}.

Definition toy_model : AlBert.AlBertBiGRUSelfAttentionCRFNer.t :=
  {| AlBert.AlBertBiGRUSelfAttentionCRFNer.albert := ();
     AlBert.AlBertBiGRUSelfAttentionCRFNer.bigru := ();
     AlBert.AlBertBiGRUSelfAttentionCRFNer.selfattention := toy_attention;
     AlBert.AlBertBiGRUSelfAttentionCRFNer.crf := () |}.

Definition toy_model_rev : AlBert.AlBertBiGRUSelfAttentionCRFNer_rev.t :=
  {| AlBert.AlBertBiGRUSelfAttentionCRFNer_rev.albert := ();
     AlBert.AlBertBiGRUSelfAttentionCRFNer_rev.bigru := ();
     AlBert.AlBertBiGRUSelfAttentionCRFNer_rev.selfattention := toy_attention;
     AlBert.AlBertBiGRUSelfAttentionCRFNer_rev.crf := () |}.

Definition toy_input : value := VTensor 5%Z.
Definition toy_decoding : value := VList [VList [VInt 0]].

End ModelSpec.

(* ===================================================================== *)
(** * Sample training runs                                                *)
(* ===================================================================== *)

(** A trainer over the small instance of the library: a loader is the list
    of its batches, and the optimizer calls do nothing. *)
Module ToyTraining.
Import Py Torch Training ModelSpec.

#[local] Existing Instance toy_types.
#[local] Existing Instance toy.

Definition toy_trainer (Model : Type) : Trainer Model :=
  {| Optimizer := unit;
     DataLoader := list (value * value);
     Adam := λ _ g, Ok ((), g);
     batches := λ l g, Ok (l, g);
     item := λ v g, Ok (v, g);
     zero_grad := λ _ g, Ok ((), g);
     backward := λ _ g, Ok ((), g);
     step := λ _ g, Ok ((), g);
     save := λ _ _ g, Ok ((), g) |}.

(** Twenty-five batches. *)
Definition toy_loader : list (value * value) :=
  replicate 25 (VTensor 5%Z, VTensor 1%Z).

Definition toy_bigru : BertTraining.model :=
  BertTraining.BiGRUCRFNer
    {| Bert.BertBiGRUCRFNer.bert := ();
       Bert.BertBiGRUCRFNer.bigru := ();
       Bert.BertBiGRUCRFNer.crf := () |}.

Definition toy_albert_crf : AlBertTraining.model :=
  AlBertTraining.CRFNer
    {| AlBert.AlBertCRFNer.albert := (); AlBert.AlBertCRFNer.crf := () |}.

Definition toy_albert_list : list AlBertTraining.model :=
  [ toy_albert_crf;
    AlBertTraining.BiLSTMCRFNer
      {| AlBert.AlBertBiLSTMCRFNer.albert := ();
         AlBert.AlBertBiLSTMCRFNer.bilstm := ();
         AlBert.AlBertBiLSTMCRFNer.crf := () |};
    AlBertTraining.BiGRUCRFNer
      {| AlBert.AlBertBiGRUCRFNer.albert := ();
         AlBert.AlBertBiGRUCRFNer.bigru := ();
         AlBert.AlBertBiGRUCRFNer.crf := () |};
    AlBertTraining.BiGRUSelfAttentionCRFNer toy_model ].

End ToyTraining.

(* ===================================================================== *)
(** * Sample runs of the data preparation                                 *)
(* ===================================================================== *)

Module Samples.
Import Py Tuples Spec.

(** What [readVocab] and [handle] return on the sample files when sets
    iterate in insertion order. *)
Definition no_vocab : vocab_out :=
  {| vocab := []; vocab2id := ∅; id2vocab := ∅; vocab_size := 0 |}.

Definition no_handle : handle_out :=
  {| out_words := []; out_labels := []; out_label_list := [];
     label2id := ∅; id2label := ∅; label_size := 0;
     input_ids := []; label_ids := [] |}.

Definition sample_vocab : vocab_out :=
  match Bert.readVocab (H:=insertion_order)
          Examples.vocab_txt Examples.train_txt with
  | Ok r => r
  | Raise _ => no_vocab
  end.

Definition sample_handle : handle_out :=
  match Bert.handle (H:=insertion_order)
          (vocab2id sample_vocab) Examples.train_txt with
  | Ok r => r
  | Raise _ => no_handle
  end.

(** A file without a blank line. *)
Definition open_txt : list str := [line "a O"; line "b B-X"].

Definition open_handle : handle_out :=
  match Bert.handle (H:=insertion_order) (vocab2id sample_vocab) open_txt with
  | Ok r => r
  | Raise _ => no_handle
  end.

(** A file with two sentences of 201 words that differ in the last word
    only. *)
Definition long_txt : list str :=
  replicate 200 (line "a O") ++ [line "b O"; line ""]
  ++ replicate 200 (line "a O") ++ [line "c O"; line ""].

Definition long_handle : handle_out :=
  match Bert.handle (H:=insertion_order) (vocab2id sample_vocab) long_txt with
  | Ok r => r
  | Raise _ => no_handle
  end.

End Samples.

(* ===================================================================== *)
(** * Facts about the Python built-ins                                    *)
(* ===================================================================== *)

Module PyFacts.
Import Py.

Lemma bind_Ok {A B} (m : result A) (f : A → result B) (b : B) :
  m ≫= f = Ok b ↔ ∃ a, m = Ok a ∧ f a = Ok b.
Proof.
  destruct m as [a|e]; simpl; split.
  - eauto.
  - intros (a' & [= <-] & Hf). exact Hf.
  - discriminate.
  - intros (a' & [=] & _).
Qed.

Lemma returns_Ok {A} (a : A) : returns (Ok a).
Proof. by exists a. Qed.

Lemma returns_Raise {A} (e : exn) : ¬ returns (Raise e : result A).
Proof. intros [a [=]]. Qed.

Lemma returns_bind {A B} (m : result A) (f : A → result B) :
  returns (m ≫= f) ↔ ∃ a, m = Ok a ∧ returns (f a).
Proof.
  unfold returns. split.
  - intros [b Hb]. apply bind_Ok in Hb as (a & Hm & Hf). eauto.
  - intros (a & Hm & b & Hf). exists b. apply bind_Ok. eauto.
Qed.

(** ** [mapM] in the exception monad *)

Lemma mapM_Ok {A B} (f : A → result B) (l : list A) (k : list B) :
  mapM f l = Ok k ↔ Forall2 (λ x y, f x = Ok y) l k.
Proof.
  revert k. induction l as [|x l IH]; intros k; simpl.
  - split.
    + intros [= <-]. constructor.
    + intros Hk. inversion Hk. reflexivity.
  - split.
    + intros Hb. apply bind_Ok in Hb as (y & Hy & Hb).
      apply bind_Ok in Hb as (k' & Hk' & [= <-]).
      constructor; [done | by apply IH].
    + intros Hk. inversion Hk as [|? y ? k' Hy Hk']; subst.
      apply IH in Hk'. rewrite Hy. simpl. rewrite Hk'. reflexivity.
Qed.

Lemma mapM_returns {A B} (f : A → result B) (l : list A) :
  returns (mapM f l) ↔ Forall (λ x, returns (f x)) l.
Proof.
  induction l as [|x l IH]; simpl.
  - split; [constructor | intros _; apply returns_Ok].
  - rewrite Forall_cons, <- IH. split.
    + intros Hr. apply returns_bind in Hr as (y & Hy & Hr).
      apply returns_bind in Hr as (k & Hk & _).
      split; [by exists y | by exists k].
    + intros [[y Hy] [k Hk]]. rewrite Hy. simpl. rewrite Hk. apply returns_Ok.
Qed.

Lemma mapM_length {A B} (f : A → result B) (l : list A) (k : list B) :
  mapM f l = Ok k → length k = length l.
Proof. intros Hk. apply mapM_Ok, Forall2_length in Hk. done. Qed.

Lemma mapM_app_Ok {A B} (f : A → result B) (l1 l2 : list A) (k : list B) :
  mapM f (l1 ++ l2) = Ok k ↔
  ∃ k1 k2, k = k1 ++ k2 ∧ mapM f l1 = Ok k1 ∧ mapM f l2 = Ok k2.
Proof.
  rewrite mapM_Ok, Forall2_app_inv_l. split.
  - intros (k1 & k2 & H1 & H2 & ->). exists k1, k2.
    by rewrite !mapM_Ok.
  - intros (k1 & k2 & -> & H1 & H2). exists k1, k2.
    by rewrite <- !mapM_Ok.
Qed.

(** ** [for] loops *)

Lemma for_each_app {S A} (body : S → A → result S) st (xs ys : list A) :
  for_each body st (xs ++ ys) =
  for_each body st xs ≫= λ st', for_each body st' ys.
Proof.
  revert st. induction xs as [|x xs IH]; intros st; simpl; [done|].
  destruct (body st x) as [st'|e]; simpl; [apply IH | done].
Qed.

(** ** The padding loop *)

Lemma append_while_shorter_eq {A} (bound : nat) (x : A) (l : list A) :
  append_while_shorter bound x l = l ++ replicate (bound - length l) x.
Proof.
  funelim (append_while_shorter bound x l).
  - rewrite H. rewrite length_app. simpl.
    replace (bound - length l) with (S (bound - (length l + 1))) by lia.
    simpl. by rewrite <- app_assoc.
  - replace (bound - length l) with 0 by lia. simpl. by rewrite app_nil_r.
Qed.

Lemma append_while_shorter_length {A} (bound : nat) (x : A) (l : list A) :
  length (append_while_shorter bound x l) = max bound (length l).
Proof.
  rewrite append_while_shorter_eq, length_app, length_replicate. lia.
Qed.

(** ** [str.split] *)

Lemma split_not_nil (sep : char) (s : str) : split sep s ≠ [].
Proof.
  destruct s as [|c s]; simpl; [done|].
  destruct (c =? sep)%N; [done|]. by destruct (split sep s).
Qed.

Lemma getitem_split_0 (sep : char) (s : str) :
  getitem (split sep s) 0 = Ok (default [] (head (split sep s))).
Proof.
  pose proof (split_not_nil sep s) as Hne.
  unfold getitem. by destruct (split sep s).
Qed.

Lemma getitem_Ok {A} (l : list A) (i : nat) (x : A) :
  getitem l i = Ok x ↔ l !! i = Some x.
Proof.
  unfold getitem. destruct (l !! i); split; congruence.
Qed.

Lemma getitem_returns {A} (l : list A) (i : nat) :
  returns (getitem l i) ↔ i < length l.
Proof.
  unfold getitem, returns. rewrite <- lookup_lt_is_Some.
  destruct (l !! i) as [x|]; split.
  - by eauto.
  - by eauto.
  - intros [a [=]].
  - intros [a [=]].
Qed.

Lemma subscript_Ok {V} (d : gmap str V) (k : str) (v : V) :
  subscript d k = Ok v ↔ d !! k = Some v.
Proof. unfold subscript. destruct (d !! k); split; congruence. Qed.

Lemma subscript_returns {V} (d : gmap str V) (k : str) :
  returns (subscript d k) ↔ is_Some (d !! k).
Proof.
  unfold subscript, returns. destruct (d !! k) as [v|]; split.
  - by eauto.
  - by eauto.
  - intros [a [=]].
  - intros [a [=]].
Qed.

End PyFacts.

(* ===================================================================== *)
(** * Dictionaries built from an enumeration                              *)
(* ===================================================================== *)

Module DictFacts.
Import Py Spec.

Section Dict.
Context {K V : Type} `{Countable K}.

Lemma foldl_insert_foldr (items : list (K * V)) (d : gmap K V) :
  foldl (λ d kv, <[kv.1 := kv.2]> d) d items =
  foldr (λ kv, <[kv.1 := kv.2]>) d (reverse items).
Proof.
  revert d. induction items as [|kv items IH]; intros d; simpl; [done|].
  rewrite reverse_cons, foldr_app. simpl. apply IH.
Qed.

Lemma dict_of_list_to_map (items : list (K * V)) :
  dict_of items = list_to_map (reverse items).
Proof. unfold dict_of. apply foldl_insert_foldr. Qed.

(** With pairwise distinct keys no item is replaced. *)
Lemma dict_of_lookup (items : list (K * V)) (k : K) (v : V) :
  NoDup items.*1 → dict_of items !! k = Some v ↔ (k, v) ∈ items.
Proof.
  intros Hnd. rewrite dict_of_list_to_map.
  rewrite <- elem_of_list_to_map.
  - by rewrite elem_of_reverse.
  - by rewrite fmap_reverse, reverse_Permutation.
Qed.

End Dict.

Lemma numbered_keys (f : nat → nat) (l : list str) : (numbered f l).*1 = l.
Proof.
  unfold numbered, enumerate. apply list_eq. intros i.
  rewrite !list_lookup_fmap, list_lookup_imap.
  by destruct (l !! i).
Qed.

Lemma elem_of_numbered (f : nat → nat) (l : list str) (k : str) (v : nat) :
  (k, v) ∈ numbered f l ↔ ∃ i, l !! i = Some k ∧ v = f i.
Proof.
  unfold numbered, enumerate. rewrite list_elem_of_fmap. split.
  - intros ([i data] & [= -> ->] & Hin).
    apply elem_of_lookup_imap in Hin as (j & y & [= -> ->] & Hj). eauto.
  - intros (i & Hi & ->). exists (i, k). split; [done|].
    apply elem_of_lookup_imap. eauto.
Qed.

Lemma table_lookup (f : nat → nat) (l : list str) (k : str) (v : nat) :
  NoDup l →
  dict_of (numbered f l) !! k = Some v ↔ ∃ i, l !! i = Some k ∧ v = f i.
Proof.
  intros Hnd. rewrite dict_of_lookup by by rewrite numbered_keys.
  apply elem_of_numbered.
Qed.

Lemma table_dom (f : nat → nat) (l : list str) :
  NoDup l → dom (dict_of (numbered f l)) = list_to_set l.
Proof.
  intros Hnd. apply set_eq. intros k.
  rewrite elem_of_dom, elem_of_list_to_set, list_elem_of_lookup.
  unfold is_Some. split.
  - intros [v Hv]. apply table_lookup in Hv as (i & Hi & _); eauto.
  - intros [i Hi]. exists (f i). apply table_lookup; eauto.
Qed.

End DictFacts.

(* ===================================================================== *)
(** * [readVocab]                                                         *)
(* ===================================================================== *)

Module VocabFacts.
Import Py Tuples Spec Bert PyFacts DictFacts.

Section Vocab.
Context `{SetOrder}.

Lemma numbered_ext (f g : nat → nat) (l : list str) :
  (∀ i, f i = g i) → numbered f l = numbered g l.
Proof.
  intros Hfg. unfold numbered. apply list_fmap_ext.
  intros _ [i data] _. simpl. by rewrite Hfg.
Qed.

Lemma members_set_iter (s : pyset) : list_to_set (set_iter s) = members s.
Proof.
  apply set_eq. intros x. unfold members.
  rewrite !elem_of_list_to_set. apply set_iter_elem.
Qed.

Lemma set_len_members (s : pyset) : set_len s = size (members s).
Proof.
  rewrite <- members_set_iter. unfold set_len.
  symmetry. apply size_list_to_set, set_iter_NoDup.
Qed.

(** The table of a comprehension [{data: 1+i for i,data in enumerate(s)}]
    is dense. *)
Lemma dense_table_numbered (s : pyset) :
  dense_table s (dict_of (numbered (λ i, 1 + i) (set_iter s))).
Proof.
  pose proof (set_iter_NoDup s) as Hnd.
  assert (Hdom : dom (dict_of (numbered (λ i, 1 + i) (set_iter s))) = members s).
  { rewrite table_dom by done. apply members_set_iter. }
  assert (Hsize : size (members s) = length (set_iter s)).
  { symmetry. apply set_len_members. }
  unfold dense_table. rewrite Hdom.
  split_and!.
  - done.
  - symmetry. apply set_len_members.
  - intros i data Hi. apply table_lookup; eauto.
  - intros k1 k2 v H1 H2.
    apply table_lookup in H1 as (i1 & Hi1 & ->); [|done].
    apply table_lookup in H2 as (i2 & Hi2 & Heq); [|done].
    assert (i1 = i2) as -> by lia. congruence.
  - intros v. rewrite Hsize. split.
    + intros (k & Hk). apply table_lookup in Hk as (i & Hi & ->); [|done].
      apply lookup_lt_Some in Hi. lia.
    + intros [H1 H2].
      destruct (lookup_lt_is_Some_2 (set_iter s) (v - 1)) as [k Hk]; [lia|].
      exists k. apply table_lookup; [done|]. exists (v - 1). split; [done|lia].
Qed.

Lemma dense_table_positive (s : pyset) (d : gmap str nat) (k : str) (v : nat) :
  dense_table s d → d !! k = Some v → 1 ≤ v.
Proof.
  intros (_ & _ & _ & _ & Hrange) Hk.
  destruct (Hrange v) as [Hv _]. apply Hv. eauto.
Qed.

(** The two reading loops of [readVocab]. *)
Lemma read_vocab_lines (acc : list str) (vocab_txt : list str) :
  for_each (λ vocab line, Ok (vocab ++ [strip line])) acc vocab_txt
  = Ok (acc ++ (strip <$> vocab_txt)).
Proof.
  revert acc. induction vocab_txt as [|line rest IH]; intros acc; simpl.
  - by rewrite app_nil_r.
  - rewrite IH. by rewrite <- app_assoc.
Qed.

Lemma read_train_lines (acc : list str) (train_txt : list str) :
  for_each (λ vocab line,
      if decide (strip line ≠ []) then
        w ← getitem (split space (strip line)) 0;
        Ok (vocab ++ [w])
      else Ok vocab) acc train_txt
  = Ok (acc ++ (first_field <$> filter (λ l, ¬ blank l) train_txt)).
Proof.
  revert acc. induction train_txt as [|line rest IH]; intros acc; simpl.
  - by rewrite app_nil_r.
  - destruct (decide (strip line ≠ [])) as [Hne|He].
    + rewrite filter_cons_True by done.
      rewrite getitem_split_0. simpl. rewrite IH.
      unfold first_field at 2, fields.
      rewrite <- head_lookup. by rewrite <- app_assoc.
    + rewrite filter_cons_False by done. simpl. apply IH.
Qed.

(** [readVocab] always returns, and this is what it returns. *)
Lemma readVocab_eq (vocab_txt train_txt : list str) :
  readVocab vocab_txt train_txt =
  Ok {| vocab := collected vocab_txt train_txt;
        vocab2id :=
          dict_of (numbered (λ i, 1 + i) (set_iter (collected vocab_txt train_txt)));
        id2vocab :=
          dict_of ((λ '(i, data), (1 + i, data))
                     <$> enumerate (set_iter (collected vocab_txt train_txt)));
        vocab_size := set_len (collected vocab_txt train_txt) |}.
Proof.
  unfold readVocab.
  rewrite read_vocab_lines. simpl.
  rewrite read_train_lines. simpl. reflexivity.
Qed.

Lemma readVocab_dense (vocab_txt train_txt : list str) (rv : vocab_out) :
  readVocab vocab_txt train_txt = Ok rv →
  dense_table (vocab rv) (vocab2id rv).
Proof.
  rewrite readVocab_eq. intros [= <-]. simpl. apply dense_table_numbered.
Qed.

End Vocab.
End VocabFacts.

(* ===================================================================== *)
(** * [handle]: the reading loop                                          *)
(* ===================================================================== *)

Module ReaderFacts.
Import Py Tuples Spec Bert PyFacts.

Lemma read_line_blank (st : reader) (line : str) :
  blank line →
  read_line st line =
  Ok {| words := words st ++ [word st]; labels := labels st ++ [label st];
        label_list := label_list st; word := []; label := [] |}.
Proof. intros Hb. unfold read_line. by rewrite decide_True. Qed.

Lemma read_line_fields (st : reader) (line : str) :
  ¬ blank line →
  1 < length (fields line) →
  read_line st line =
  Ok {| words := words st; labels := labels st;
        label_list := set_add (label_list st) (second_field line);
        word := word st ++ [first_field line];
        label := label st ++ [second_field line] |}.
Proof.
  intros Hb Hlen. unfold read_line. rewrite decide_False by done.
  unfold first_field, second_field. fold (fields line).
  destruct (fields line) as [|w [|t rest]]; simpl in *; [lia | lia | done].
Qed.

Lemma read_line_short (st : reader) (line : str) :
  ¬ blank line → ¬ 1 < length (fields line) →
  read_line st line = Raise IndexError.
Proof.
  intros Hb Hlen. unfold read_line. rewrite decide_False by done.
  fold (fields line).
  destruct (fields line) as [|w [|t rest]]; simpl in *; [done | done | lia].
Qed.

(** The loop finishes exactly when every non-blank line has two fields. *)
Lemma reader_returns (st0 : reader) (fp : list str) :
  returns (for_each read_line st0 fp) ↔
  Forall (λ line, ¬ blank line → 1 < length (fields line)) fp.
Proof.
  revert st0. induction fp as [|line rest IH]; intros st0; simpl.
  - split; [constructor | intros _; apply returns_Ok].
  - rewrite Forall_cons. destruct (decide (blank line)) as [Hb|Hb].
    + rewrite read_line_blank by done. simpl. rewrite IH.
      split; [intros Hr; split; [intros Hn; by destruct Hn | done]
             | by intros [_ Hr]].
    + destruct (decide (1 < length (fields line))) as [Hl|Hl].
      * rewrite read_line_fields by done. simpl. rewrite IH.
        split; [by intros Hr; split | by intros [_ Hr]].
      * rewrite read_line_short by done. simpl. split.
        -- intros Hr. by apply returns_Raise in Hr.
        -- intros [Hl' _]. by destruct Hl; apply Hl'.
Qed.

(** What the loop leaves in its variables. *)
Lemma reader_state (st0 st : reader) (fp : list str) :
  for_each read_line st0 fp = Ok st →
  words st = words st0 ++ group first_field (word st0) fp
  ∧ labels st = labels st0 ++ group second_field (label st0) fp
  ∧ label_list st =
      label_list st0 ++ (second_field <$> filter (λ l, ¬ blank l) fp).
Proof.
  revert st0. induction fp as [|line rest IH]; intros st0; simpl.
  - intros [= <-]. by rewrite !app_nil_r.
  - destruct (decide (blank line)) as [Hb|Hb].
    + rewrite read_line_blank by done. simpl. intros Hst.
      apply IH in Hst as (Hw & Hl & Hs). simpl in *.
      rewrite filter_cons_False by tauto.
      rewrite Hw, Hl, Hs. by rewrite <- !app_assoc.
    + destruct (decide (1 < length (fields line))) as [Hlen|Hlen].
      * rewrite read_line_fields by done. simpl. intros Hst.
        apply IH in Hst as (Hw & Hl & Hs). simpl in *.
        rewrite filter_cons_True by done.
        rewrite Hw, Hl, Hs. unfold set_add.
        by rewrite <- app_assoc.
      * rewrite read_line_short by done. discriminate.
Qed.

(** ** Sentences *)

Lemma group_length (f : str → str) (cur : list str) (fp : list str) :
  length (group f cur fp) = length (filter blank fp).
Proof.
  revert cur. induction fp as [|line rest IH]; intros cur; simpl; [done|].
  destruct (decide (blank line)).
  - rewrite filter_cons_True by done. simpl. by rewrite IH.
  - rewrite filter_cons_False by done. apply IH.
Qed.

(** Lines after the last blank line add no sentence. *)
Lemma group_unterminated (f : str → str) (cur : list str) (tail : list str) :
  Forall (λ l, ¬ blank l) tail → group f cur tail = [].
Proof.
  revert cur. induction tail as [|line rest IH]; intros cur Hall; [done|].
  apply Forall_cons in Hall as [Hb Hall]. simpl.
  rewrite decide_False by done. by apply IH.
Qed.

Lemma group_app (f : str → str) (cur : list str) (body tail : list str) :
  Forall (λ l, ¬ blank l) tail →
  group f cur (body ++ tail) = group f cur body.
Proof.
  intros Htail. revert cur.
  induction body as [|line rest IH]; intros cur; simpl.
  - by apply group_unterminated.
  - destruct (decide (blank line)); by rewrite IH.
Qed.

Lemma group_elem (f : str → str) (cur : list str) (fp : list str) (s : list str) (x : str) :
  s ∈ group f cur fp → x ∈ s →
  x ∈ cur ∨ x ∈ f <$> filter (λ l, ¬ blank l) fp.
Proof.
  revert cur. induction fp as [|line rest IH]; intros cur; simpl.
  - intros Hs. by apply elem_of_nil in Hs.
  - destruct (decide (blank line)) as [Hb|Hb].
    + rewrite filter_cons_False by tauto.
      intros [->|Hs]%elem_of_cons Hx; [by left|].
      destruct (IH [] Hs Hx) as [Hnil|Hin]; [by apply elem_of_nil in Hnil|].
      by right.
    + rewrite filter_cons_True by done. rewrite fmap_cons.
      intros Hs Hx. destruct (IH _ Hs Hx) as [Hcur|Hin].
      * apply elem_of_app in Hcur as [Hcur|Hl]; [by left|].
        apply list_elem_of_singleton in Hl as ->. right. by left.
      * right. by right.
Qed.

End ReaderFacts.

(* ===================================================================== *)
(** * [handle]: the encoding loops                                        *)
(* ===================================================================== *)

Module EncodeFacts.
Import Py Tuples Spec Bert PyFacts DictFacts VocabFacts ReaderFacts.

Lemma max_seq_length_eq : max_seq_length = 202.
Proof. reflexivity. Qed.

Lemma mapM_subscript (table : gmap str nat) (s : list str) (toks : list nat) :
  mapM (subscript table) s = Ok toks ↔
  Forall2 (λ w t, table !! w = Some t) s toks.
Proof.
  rewrite mapM_Ok.
  split; intros Hall; (eapply Forall2_impl; [exact Hall|]);
    intros w t; apply subscript_Ok.
Qed.

(** Truncation, the inserted "[CLS]" id, the padding loop and the appended
    "[SEP]" id, in one expression. *)
Lemma pad_shape (cls sep : nat) (toks : list nat) :
  append_while_shorter (max_seq_length - 1) 0
    (cls :: (if decide (max_seq_length - 2 < length toks)
             then take (max_seq_length - 2) toks else toks)) ++ [sep]
  = [cls] ++ take (max_seq_length - 2) toks
      ++ replicate (max_seq_length - 2 - length toks) 0 ++ [sep].
Proof.
  rewrite append_while_shorter_eq. rewrite max_seq_length_eq.
  change (202 - 2) with 200. change (202 - 1) with 201.
  destruct (decide (200 < length toks)) as [Hlong|Hshort].
  - cbn [length]. rewrite length_take.
    replace (201 - S (200 `min` length toks)) with 0 by lia.
    replace (200 - length toks) with 0 by lia.
    cbn [replicate]. by rewrite app_nil_r.
  - rewrite (take_ge toks 200) by lia. cbn [length].
    replace (201 - S (length toks)) with (200 - length toks) by lia.
    by rewrite <- !app_assoc.
Qed.

(** The loop body produces the fixed-length encoding, and nothing else. *)
Lemma encode_Ok (table : gmap str nat) (s : list str) (ids : list nat) :
  encode table s = Ok ids ↔ encoding table s ids.
Proof.
  unfold encode, encoding. rewrite bind_Ok. split.
  - intros (toks & Htoks & Hrest).
    apply bind_Ok in Hrest as (cls & Hcls & Hrest).
    apply bind_Ok in Hrest as (sep & Hsep & [= <-]).
    exists toks, cls, sep.
    apply mapM_subscript in Htoks. apply subscript_Ok in Hcls, Hsep.
    split_and!; try done.
    apply pad_shape.
  - intros (toks & cls & sep & Htoks & Hcls & Hsep & ->).
    exists toks. apply mapM_subscript in Htoks. split; [done|].
    apply subscript_Ok in Hcls, Hsep.
    apply bind_Ok. exists cls. split; [done|].
    apply bind_Ok. exists sep. split; [done|].
    f_equal. apply pad_shape.
Qed.

Lemma encoding_length (table : gmap str nat) (s : list str) (ids : list nat) :
  encoding table s ids → length ids = max_seq_length.
Proof.
  intros (toks & cls & sep & _ & _ & _ & ->).
  rewrite max_seq_length_eq. change (202 - 2) with 200.
  rewrite !length_app, length_take, length_replicate. cbn [length]. lia.
Qed.

Lemma encode_returns (table : gmap str nat) (s : list str) :
  returns (encode table s) ↔
  Forall (λ w, is_Some (table !! w)) s
  ∧ is_Some (table !! py "[CLS]") ∧ is_Some (table !! py "[SEP]").
Proof.
  unfold encode. rewrite returns_bind. split.
  - intros (toks & Htoks & Hr).
    apply returns_bind in Hr as (cls & Hcls & Hr).
    apply returns_bind in Hr as (sep & Hsep & _).
    apply subscript_Ok in Hcls, Hsep. split_and!; [|by eauto|by eauto].
    apply mapM_subscript in Htoks.
    eapply Forall2_Forall_l; [exact Htoks|].
    apply Forall_forall. intros t _ w Hw. by eauto.
  - intros (Hall & [cls Hcls] & [sep Hsep]).
    assert (returns (mapM (subscript table) s)) as [toks Htoks].
    { apply mapM_returns. eapply Forall_impl; [exact Hall|].
      intros w Hw. by apply subscript_returns. }
    exists toks. split; [done|].
    apply subscript_Ok in Hcls, Hsep.
    apply returns_bind. exists cls. split; [done|].
    apply returns_bind. exists sep. split; [done|].
    apply returns_Ok.
Qed.

End EncodeFacts.

(* ===================================================================== *)
(** * [handle] as a whole                                                 *)
(* ===================================================================== *)

Module HandleFacts.
Import Py Tuples Spec Bert PyFacts DictFacts VocabFacts ReaderFacts EncodeFacts.

Section Handle.
Context `{SetOrder}.

Lemma label_table_dense (fp : list str) :
  dense_table (collected_labels fp) (label_table fp).
Proof.
  unfold label_table.
  rewrite (numbered_ext (λ i, i + 1) (λ i, 1 + i)) by (intros; lia).
  apply dense_table_numbered.
Qed.

Lemma label_table_is_Some (fp : list str) (x : str) :
  x ∈ collected_labels fp → is_Some (label_table fp !! x).
Proof.
  intros Hx. apply elem_of_dom.
  destruct (label_table_dense fp) as (-> & _).
  unfold members. by apply elem_of_list_to_set.
Qed.

(** Every label sentence can be encoded: each label was added to the set
    the table is built from. *)
Lemma labels_encodable (fp : list str) :
  Forall (λ s, returns (encode (label_table fp) s)) (group second_field [] fp).
Proof.
  apply Forall_forall. intros s Hs. apply encode_returns. split_and!.
  - apply Forall_forall. intros x Hx. apply label_table_is_Some.
    destruct (group_elem _ _ _ _ _ Hs Hx) as [Hnil|Hin].
    + by apply elem_of_nil in Hnil.
    + unfold collected_labels. apply elem_of_app. by right.
  - apply label_table_is_Some. unfold collected_labels. set_solver.
  - apply label_table_is_Some. unfold collected_labels. set_solver.
Qed.

Lemma reader_initial (fp : list str) (st : reader) :
  for_each read_line reader0 fp = Ok st →
  words st = group first_field [] fp
  ∧ labels st = group second_field [] fp
  ∧ label_list st = collected_labels fp.
Proof.
  intros Hst. apply reader_state in Hst as (Hw & Hl & Hs). simpl in *. done.
Qed.

(** What [handle] returns when it returns. *)
Lemma handle_inv (vocab2id : gmap str nat) (fp : list str) (r : handle_out) :
  handle vocab2id fp = Ok r →
  out_words r = group first_field [] fp
  ∧ out_labels r = group second_field [] fp
  ∧ out_label_list r = collected_labels fp
  ∧ label2id r = label_table fp
  ∧ label_size r = set_len (collected_labels fp)
  ∧ Forall2 (encoding vocab2id) (out_words r) (input_ids r)
  ∧ Forall2 (encoding (label2id r)) (out_labels r) (label_ids r).
Proof.
  unfold handle. intros Hh.
  apply bind_Ok in Hh as (st & Hst & Hh).
  apply bind_Ok in Hh as (ins & Hins & Hh).
  apply bind_Ok in Hh as (lbs & Hlbs & [= <-]).
  apply reader_initial in Hst as (Hw & Hl & Hs). simpl.
  rewrite Hw, Hl, Hs in *. split_and!; try done.
  - apply mapM_Ok in Hins. eapply Forall2_impl; [exact Hins|].
    intros s ids. apply encode_Ok.
  - apply mapM_Ok in Hlbs. eapply Forall2_impl; [exact Hlbs|].
    intros s ids. apply encode_Ok.
Qed.

(** When [handle] returns. *)
Lemma handle_returns (vocab2id : gmap str nat) (fp : list str) :
  returns (handle vocab2id fp) ↔
  Forall (λ line, ¬ blank line → 1 < length (fields line)) fp
  ∧ Forall (λ s, returns (encode vocab2id s)) (group first_field [] fp).
Proof.
  unfold handle. rewrite returns_bind. split.
  - intros (st & Hst & Hr). split.
    + apply (reader_returns reader0 fp). by exists st.
    + apply reader_initial in Hst as (Hw & _ & _).
      apply returns_bind in Hr as (ins & Hins & _).
      rewrite <- Hw. apply mapM_returns. by exists ins.
  - intros [Hfields Hwords].
    destruct (proj2 (reader_returns reader0 fp) Hfields) as [st Hst].
    exists st. split; [exact Hst|].
    apply reader_initial in Hst as (Hw & Hl & Hs).
    rewrite Hw, Hl, Hs.
    apply mapM_returns in Hwords as [ins Hins].
    apply returns_bind. exists ins. split; [done|].
    pose proof (labels_encodable fp) as Hlabels.
    apply mapM_returns in Hlabels as [lbs Hlbs].
    apply returns_bind. exists lbs. split; [exact Hlbs|].
    apply returns_Ok.
Qed.

Lemma handle_label_dense (vocab2id : gmap str nat) (fp : list str)
    (r : handle_out) :
  handle vocab2id fp = Ok r →
  dense_table (out_label_list r) (label2id r).
Proof.
  intros Hh. apply handle_inv in Hh as (_ & _ & -> & -> & _).
  apply label_table_dense.
Qed.

End Handle.
End HandleFacts.

(* ===================================================================== *)
(** * Sentences and the terminated part of a file                         *)
(* ===================================================================== *)

Module SentenceFacts.
Import Py Tuples Spec Bert PyFacts DictFacts VocabFacts ReaderFacts EncodeFacts
  HandleFacts.

Lemma group_nil_iff (f : str → str) (cur : list str) (fp : list str) :
  group f cur fp = [] ↔ terminated fp = [].
Proof.
  revert cur. induction fp as [|l rest IH]; intros cur; simpl; [done|].
  destruct (decide (blank l)) as [Hb|Hb]; [done|].
  rewrite IH. by destruct (terminated rest).
Qed.

(** A property of all tokens of all sentences is a property of the
    non-blank lines of the terminated part. *)
Lemma group_Forall (f : str → str) (P : str → Prop) (cur : list str)
    (fp : list str) :
  Forall (Forall P) (group f cur fp) ↔
  (terminated fp ≠ [] → Forall P cur)
  ∧ Forall (λ l, ¬ blank l → P (f l)) (terminated fp).
Proof.
  revert cur. induction fp as [|l rest IH]; intros cur; simpl.
  - split; [by split | constructor].
  - destruct (decide (blank l)) as [Hb|Hb].
    + rewrite !Forall_cons, IH. split.
      * intros (Hcur & _ & Hrest). by split_and!.
      * intros (Hcur & _ & Hrest). split_and!; [by apply Hcur | done | done].
    + rewrite IH. destruct (terminated rest) as [|t ts] eqn:Ht.
      * split; intros _; by split.
      * split.
        -- intros [Hcur Hrest].
           assert (Forall P (cur ++ [f l])) as Hall by by apply Hcur.
           apply Forall_app in Hall as [Hall Hl].
           rewrite Forall_singleton in Hl.
           split; [done|]. apply Forall_cons.
           split; [intros _; exact Hl | exact Hrest].
        -- intros (Hcur & [Hl Hrest]%Forall_cons). split; [|done].
           intros _. apply Forall_app. split; [by apply Hcur|].
           rewrite Forall_singleton. by apply Hl.
Qed.

(** The words of the sentences can be looked up exactly when the first
    fields of the terminated part are keys, and, if there is a sentence at
    all, so are "[CLS]" and "[SEP]". *)
Lemma words_encodable (d : gmap str nat) (fp : list str) :
  Forall (λ s, returns (encode d s)) (group first_field [] fp) ↔
  Forall (λ l, ¬ blank l → is_Some (d !! first_field l)) (terminated fp)
  ∧ (terminated fp ≠ [] →
     is_Some (d !! py "[CLS]") ∧ is_Some (d !! py "[SEP]")).
Proof.
  rewrite <- (group_nil_iff first_field [] fp).
  pose proof (group_Forall first_field (λ w, is_Some (d !! w)) [] fp) as HF.
  rewrite <- (group_nil_iff first_field [] fp) in HF.
  split.
  - intros Hall. split.
    + apply HF. eapply Forall_impl; [exact Hall|].
      intros s Hs. by apply encode_returns in Hs as (Hs & _).
    + intros Hne. destruct (group first_field [] fp) as [|s ss]; [done|].
      apply Forall_cons in Hall as [Hs _].
      by apply encode_returns in Hs as (_ & Hcls & Hsep).
  - intros [Hkeys Hmarks].
    assert (Forall (Forall (λ w, is_Some (d !! w))) (group first_field [] fp))
      as Hall by (apply HF; by split).
    apply Forall_forall. intros s Hs. apply encode_returns.
    assert (group first_field [] fp ≠ []) as Hne.
    { intros Hnil. rewrite Hnil in Hs. by apply elem_of_nil in Hs. }
    destruct (Hmarks Hne) as [Hcls Hsep].
    split_and!; [|done|done].
    by eapply Forall_forall in Hall.
Qed.

End SentenceFacts.

(* ===================================================================== *)
(** * Layout of an encoded sequence                                       *)
(* ===================================================================== *)

Module LayoutFacts.
Import Py Tuples Spec Bert PyFacts DictFacts VocabFacts ReaderFacts EncodeFacts.

Lemma zeros_between (cls sep : nat) (real : list nat) (k i : nat) :
  1 ≤ cls → 1 ≤ sep → Forall (λ t, 1 ≤ t) real →
  ([cls] ++ real ++ replicate k 0 ++ [sep]) !! i = Some 0
  ↔ length real < i < 1 + length real + k.
Proof.
  intros Hcls Hsep Hreal. destruct i as [|i]; simpl.
  - split; [intros [= ->]; lia | lia].
  - destruct (decide (i < length real)) as [Hi|Hi].
    + rewrite lookup_app_l by done. split; [|lia].
      intros Hz. eapply Forall_lookup in Hreal; [|exact Hz]. lia.
    + rewrite lookup_app_r by lia.
      destruct (decide (i - length real < k)) as [Hk|Hk].
      * rewrite lookup_app_l by by rewrite length_replicate.
        rewrite lookup_replicate. split; [lia | done].
      * rewrite lookup_app_r by (rewrite length_replicate; lia).
        rewrite length_replicate. split; [|lia].
        intros Hz. apply list_elem_of_lookup_2 in Hz.
        apply list_elem_of_singleton in Hz. lia.
Qed.

Lemma last_position (cls sep : nat) (real : list nat) (k : nat) :
  ([cls] ++ real ++ replicate k 0 ++ [sep]) !! (1 + length real + k) = Some sep.
Proof.
  simpl. rewrite lookup_app_r by lia.
  rewrite lookup_app_r by (rewrite length_replicate; lia).
  rewrite length_replicate.
  by replace (length real + k - length real - k) with 0 by lia.
Qed.

(** Over a table without the value 0, an encoding has the layout. *)
Lemma encoding_layout (table : gmap str nat) (s : list str) (ids : list nat) :
  (∀ k v, table !! k = Some v → 1 ≤ v) →
  encoding table s ids → layout table ids.
Proof.
  intros Hpos Henc. pose proof (encoding_length _ _ _ Henc) as Hlen.
  destruct Henc as (toks & cls & sep & Htoks & Hcls & Hsep & ->).
  assert (Forall (λ t, 1 ≤ t) toks) as Htoks_pos.
  { eapply Forall2_Forall_r; [exact Htoks|].
    apply Forall_forall. intros w _ t Ht. by eapply Hpos. }
  assert (1 ≤ cls) as Hc by by eapply Hpos.
  assert (1 ≤ sep) as Hs by by eapply Hpos.
  unfold layout. rewrite max_seq_length_eq in *.
  change (202 - 2) with 200 in *. change (202 - 1) with 201.
  set (real := take 200 toks) in *.
  assert (length real ≤ 200) as Hreal_len.
  { unfold real. rewrite length_take. lia. }
  assert (200 - length toks = 200 - length real) as Hk.
  { unfold real. rewrite length_take. lia. }
  rewrite Hk in *.
  assert (Forall (λ t, 1 ≤ t) real) as Hreal_pos.
  { unfold real. by apply Forall_take. }
  exists cls, real, sep. split_and!; try done.
  - apply Forall_app. split; [by apply Forall_singleton|].
    apply Forall_app. split; [done | by apply Forall_singleton].
  - replace 201 with (1 + length real + (200 - length real)) by lia.
    apply last_position.
  - intros i. rewrite zeros_between by done. lia.
Qed.

End LayoutFacts.

(* ===================================================================== *)
(** * Exceptions of [handle]                                              *)
(* ===================================================================== *)

Module RaiseFacts.
Import Py Tuples Spec Bert PyFacts DictFacts VocabFacts ReaderFacts EncodeFacts
  HandleFacts SentenceFacts.

Lemma bind_Raise {A B} (m : result A) (f : A → result B) (e : exn) :
  m ≫= f = Raise e ↔ m = Raise e ∨ ∃ a, m = Ok a ∧ f a = Raise e.
Proof.
  destruct m as [a|e']; simpl; split.
  - intros Hf. right. eauto.
  - intros [[=]|(a' & [= <-] & Hf)]. exact Hf.
  - intros [= ->]. by left.
  - intros [[= ->]|(a' & [=] & _)]. done.
Qed.

Lemma not_returns_Raise {A} (m : result A) : ¬ returns m → ∃ e, m = Raise e.
Proof.
  destruct m as [a|e]; [|by eauto]. intros Hn. destruct Hn. by exists a.
Qed.

Lemma mapM_Raise {A B} (f : A → result B) (l : list A) (e : exn) :
  mapM f l = Raise e → ∃ x, x ∈ l ∧ f x = Raise e.
Proof.
  induction l as [|x l IH]; simpl; [discriminate|].
  intros [Hx|(y & Hy & Hrest)]%bind_Raise.
  - exists x. split; [by left | done].
  - apply bind_Raise in Hrest as [Hl|(k & _ & [=])].
    destruct (IH Hl) as (x' & Hin & Hx'). exists x'. split; [by right | done].
Qed.

Lemma subscript_Raise {V} (d : gmap str V) (k : str) (e : exn) :
  subscript d k = Raise e → e = KeyError k ∧ d !! k = None.
Proof.
  unfold subscript. destruct (d !! k); [discriminate|]. by intros [= <-].
Qed.

(** The reading loop raises nothing but [IndexError]. *)
Lemma read_line_Raise (st : reader) (line : str) (e : exn) :
  read_line st line = Raise e →
  e = IndexError ∧ ¬ blank line ∧ length (fields line) < 2.
Proof.
  destruct (decide (blank line)) as [Hb|Hb].
  { rewrite read_line_blank by done. discriminate. }
  destruct (decide (1 < length (fields line))) as [Hl|Hl].
  { rewrite read_line_fields by done. discriminate. }
  rewrite read_line_short by done. intros [= <-]. split_and!; [done|done|lia].
Qed.

Lemma reader_Raise (st0 : reader) (fp : list str) (e : exn) :
  for_each read_line st0 fp = Raise e →
  e = IndexError ∧ Exists (λ l, ¬ blank l ∧ length (fields l) < 2) fp.
Proof.
  revert st0. induction fp as [|line rest IH]; intros st0; simpl.
  - discriminate.
  - intros [Hl|(st & _ & Hrest)]%bind_Raise.
    + apply read_line_Raise in Hl as (-> & Hb & Hlen).
      split; [done|]. by left.
    + apply IH in Hrest as [-> Hex]. split; [done|]. by right.
Qed.

(** An encoding loop raises nothing but [KeyError], for a key that is
    missing from its table. *)
Lemma encode_Raise (table : gmap str nat) (s : list str) (e : exn) :
  encode table s = Raise e →
  ∃ k, e = KeyError k ∧ table !! k = None
       ∧ (k ∈ s ∨ k = py "[CLS]" ∨ k = py "[SEP]").
Proof.
  unfold encode. intros [Hm|(toks & _ & Hrest)]%bind_Raise.
  - apply mapM_Raise in Hm as (w & Hw & Hk).
    apply subscript_Raise in Hk as [-> Hk]. exists w. by eauto.
  - apply bind_Raise in Hrest as [Hc|(cls & _ & Hrest)].
    + apply subscript_Raise in Hc as [-> Hc]. eexists. by eauto.
    + apply bind_Raise in Hrest as [Hs|(sep & _ & [=])].
      apply subscript_Raise in Hs as [-> Hs]. eexists. by eauto.
Qed.

Lemma terminated_elem (fp : list str) (l : str) : l ∈ terminated fp → l ∈ fp.
Proof.
  induction fp as [|x rest IH]; simpl; [done|].
  destruct (decide (blank x)).
  - intros [->|Hl]%elem_of_cons; [by left | right; by apply IH].
  - destruct (terminated rest) as [|t ts]; [by intros ?%elem_of_nil|].
    intros [->|Hl]%elem_of_cons; [by left | right; by apply IH].
Qed.

(** The words of the sentences are first fields of non-blank lines of the
    terminated part. *)
Lemma group_words_terminated (fp : list str) (s : list str) (w : str) :
  s ∈ group first_field [] fp → w ∈ s →
  w ∈ first_field <$> filter (λ l, ¬ blank l) (terminated fp).
Proof.
  intros Hs Hw.
  assert (Forall (Forall
    (λ w, w ∈ first_field <$> filter (λ l, ¬ blank l) (terminated fp)))
    (group first_field [] fp)) as Hall.
  { apply group_Forall. split; [intros _; constructor|].
    apply Forall_forall. intros l Hl Hb.
    apply list_elem_of_fmap. exists l. split; [done|].
    by apply list_elem_of_filter. }
  rewrite Forall_forall in Hall. specialize (Hall s Hs).
  rewrite Forall_forall in Hall. by apply Hall.
Qed.

End RaiseFacts.

(* ===================================================================== *)
(** * The data preparation: main results                                  *)
(* ===================================================================== *)

Section Preparation.
Import Py Tuples Spec Bert PyFacts DictFacts VocabFacts ReaderFacts EncodeFacts
  HandleFacts SentenceFacts LayoutFacts.
Context `{SetOrder}.

(** C1.  Every sentence [handle] parses is encoded to a list of exactly
    [max_seq_length] = 202 ids: the id of "[CLS]" first, then the ids of
    the first [max_seq_length - 2] tokens, then zeros up to
    [max_seq_length - 1] elements, then the id of "[SEP]"; the label
    sentences are encoded the same way through [label2id]. *)
Theorem handle_fixed_length (vocab2id : gmap str nat) (fp : list str)
    (r : handle_out) :
  handle vocab2id fp = Ok r →
  max_seq_length = 202
  ∧ Forall2 (encoding vocab2id) (out_words r) (input_ids r)
  ∧ Forall2 (encoding (label2id r)) (out_labels r) (label_ids r)
  ∧ Forall (λ ids, length ids = max_seq_length) (input_ids r)
  ∧ Forall (λ ids, length ids = max_seq_length) (label_ids r).
Proof.
  intros Hh. apply handle_inv in Hh as (_ & _ & _ & _ & _ & Hin & Hlb).
  split_and!; try done.
  - eapply Forall2_Forall_r; [exact Hin|].
    apply Forall_forall. intros s _ ids. apply encoding_length.
  - eapply Forall2_Forall_r; [exact Hlb|].
    apply Forall_forall. intros s _ ids. apply encoding_length.
Qed.

(** C2.  [vocab2id] of [readVocab] and [label2id] of [handle] are
    injective, their keys are the distinct strings collected, their values
    are exactly 1..N for N the number of keys, and the i-th element in the
    iteration order of the underlying set is given 1+i. *)
Theorem tables_dense (vocab_txt train_txt : list str) (rv : vocab_out)
    (d : gmap str nat) (fp : list str) (rh : handle_out) :
  readVocab vocab_txt train_txt = Ok rv →
  handle d fp = Ok rh →
  dense_table (vocab rv) (vocab2id rv)
  ∧ dense_table (out_label_list rh) (label2id rh).
Proof.
  intros Hv Hh.
  split; [by eapply readVocab_dense | by eapply handle_label_dense].
Qed.

(** C6.  [readVocab] returns, as the vocabulary, the union of the set of
    stripped lines of the vocabulary file and the set of first
    space-delimited fields of the non-blank lines of the training file,
    and as the size the cardinality of that set. *)
Theorem readVocab_union (vocab_txt train_txt : list str) :
  ∃ r, readVocab vocab_txt train_txt = Ok r
    ∧ members (vocab r) =
        list_to_set (strip <$> vocab_txt)
        ∪ list_to_set (first_field <$> filter (λ l, ¬ blank l) train_txt)
    ∧ vocab_size r = size (members (vocab r)).
Proof.
  eexists. split; [apply readVocab_eq|]. simpl. split.
  - unfold members, collected. apply list_to_set_app_L.
  - apply set_len_members.
Qed.

(** C8.  With the table of [readVocab], every sequence [handle] encodes
    has the "[SEP]" id in its last position, index [max_seq_length - 1];
    its zeros are exactly the positions after the last real id and before
    that last position; and no key of [vocab2id] or [label2id] has the
    value 0. *)
Theorem padding_layout (vocab_txt train_txt fp : list str) (rv : vocab_out)
    (rh : handle_out) :
  readVocab vocab_txt train_txt = Ok rv →
  handle (vocab2id rv) fp = Ok rh →
  (∀ k v, vocab2id rv !! k = Some v → 1 ≤ v)
  ∧ (∀ k v, label2id rh !! k = Some v → 1 ≤ v)
  ∧ Forall (layout (vocab2id rv)) (input_ids rh)
  ∧ Forall (layout (label2id rh)) (label_ids rh).
Proof.
  intros Hv Hh.
  pose proof (readVocab_dense _ _ _ Hv) as Hdv.
  pose proof (handle_label_dense _ _ _ Hh) as Hdl.
  assert (∀ k v, vocab2id rv !! k = Some v → 1 ≤ v) as Hvpos.
  { intros k v. by eapply dense_table_positive. }
  assert (∀ k v, label2id rh !! k = Some v → 1 ≤ v) as Hlpos.
  { intros k v. by eapply dense_table_positive. }
  apply handle_inv in Hh as (_ & _ & _ & _ & _ & Hin & Hlb).
  split_and!; try done.
  - eapply Forall2_Forall_r; [exact Hin|].
    apply Forall_forall. intros s _ ids. by apply encoding_layout.
  - eapply Forall2_Forall_r; [exact Hlb|].
    apply Forall_forall. intros s _ ids. by apply encoding_layout.
Qed.

End Preparation.

(** The theorems at the sample files. *)
Lemma handle_fixed_length_witness :
  ∃ r, Bert.handle (H:=Py.insertion_order) Examples.table Examples.train_txt
       = Py.Ok r
    ∧ Forall (λ ids, length ids = 202) (Tuples.input_ids r)
    ∧ length (Tuples.input_ids r) = 2.
Proof.
  eexists. split; [vm_compute; reflexivity|].
  split.
  - apply (@handle_fixed_length Py.insertion_order
             Examples.table Examples.train_txt).
    vm_compute. reflexivity.
  - reflexivity.
Defined.

Section Termination.
Import Py Tuples Spec Bert PyFacts DictFacts VocabFacts ReaderFacts EncodeFacts
  HandleFacts SentenceFacts LayoutFacts.
Context `{SetOrder}.

Lemma handle_encoded (vocab2id : gmap str nat) (fp : list str) (r : handle_out) :
  handle vocab2id fp = Ok r →
  mapM (encode vocab2id) (group first_field [] fp) = Ok (input_ids r)
  ∧ length (label_ids r) = length (filter blank fp).
Proof.
  intros Hh. apply handle_inv in Hh as (Hw & Hl & _ & _ & _ & Hin & Hlb).
  split.
  - rewrite <- Hw. apply mapM_Ok. eapply Forall2_impl; [exact Hin|].
    intros s ids. apply encode_Ok.
  - apply Forall2_length in Hlb. rewrite <- Hlb, Hl. apply group_length.
Qed.

(** C9.  Lines after the last blank line of the file give no sentence:
    with or without them [handle] returns the same words, labels and
    input ids, and label id lists that encode the same label sentences,
    and in each of the four outputs the number of sentences is the number
    of blank lines of the file. *)
Theorem unterminated_sentence_dropped (vocab2id : gmap str nat)
    (body tail : list str) (r : handle_out) :
  Forall (λ l, ¬ blank l) tail →
  handle vocab2id (body ++ tail) = Ok r →
  ∃ r0, handle vocab2id body = Ok r0
    ∧ out_words r = out_words r0
    ∧ out_labels r = out_labels r0
    ∧ input_ids r = input_ids r0
    ∧ length (label_ids r) = length (label_ids r0)
    ∧ Forall2 (encoding (label2id r)) (out_labels r0) (label_ids r)
    ∧ length (out_words r) = length (filter blank (body ++ tail))
    ∧ length (out_labels r) = length (filter blank (body ++ tail))
    ∧ length (input_ids r) = length (filter blank (body ++ tail))
    ∧ length (label_ids r) = length (filter blank (body ++ tail)).
Proof.
  intros Htail Hh.
  assert (returns (handle vocab2id body)) as [r0 Hr0].
  { apply handle_returns.
    destruct (proj1 (handle_returns vocab2id (body ++ tail))) as [Hf Hw].
    { by exists r. }
    apply Forall_app in Hf as [Hf _]. rewrite group_app in Hw by done.
    by split. }
  exists r0. split; [done|].
  pose proof (handle_encoded _ _ _ Hh) as [Hin Hlen].
  pose proof (handle_encoded _ _ _ Hr0) as [Hin0 Hlen0].
  pose proof (handle_inv _ _ _ Hh) as (Hw & Hl & _ & _ & _ & Hins & Hlbs).
  pose proof (handle_inv _ _ _ Hr0) as (Hw0 & Hl0 & _).
  rewrite group_app in Hin, Hw, Hl by done.
  assert (length (filter blank (body ++ tail)) = length (filter blank body))
    as Hblank.
  { rewrite <- !(group_length first_field []). by rewrite group_app. }
  split_and!.
  - congruence.
  - congruence.
  - congruence.
  - congruence.
  - by rewrite Hl0, <- Hl.
  - rewrite Hw, Hblank. apply group_length.
  - rewrite Hl, Hblank. apply group_length.
  - apply Forall2_length in Hins. rewrite <- Hins, Hw, Hblank.
    apply group_length.
  - done.
Qed.

(** Every way [handle] has of raising: [IndexError] from the reading loop,
    at a non-blank line with fewer than two fields, or, once the file is
    read, [KeyError] from the encoding of the words, for a key that
    [vocab2id] lacks. *)
Lemma handle_Raise_cases (vocab2id : gmap str nat) (fp : list str) (e : exn) :
  handle vocab2id fp = Raise e →
  (e = IndexError ∧ Exists (λ l, ¬ blank l ∧ length (fields l) < 2) fp)
  ∨ (Forall (λ l, ¬ blank l → 1 < length (fields l)) fp
     ∧ ∃ k, e = KeyError k ∧ vocab2id !! k = None
          ∧ (k = py "[CLS]" ∨ k = py "[SEP]"
             ∨ k ∈ first_field <$> filter (λ l, ¬ blank l) (terminated fp))).
Proof.
  unfold handle.
  intros [Hr|(st & Hst & Hrest)]%RaiseFacts.bind_Raise.
  { left. by apply (RaiseFacts.reader_Raise reader0). }
  right. split.
  { apply (reader_returns reader0). by exists st. }
  apply reader_initial in Hst as (Hw & Hl & Hs). rewrite Hw, Hl, Hs in Hrest.
  apply RaiseFacts.bind_Raise in Hrest as [Hin|(ins & _ & Hrest)].
  - apply RaiseFacts.mapM_Raise in Hin as (s & Hs' & He).
    apply RaiseFacts.encode_Raise in He as (k & -> & Hk & Hwhere).
    exists k. split_and!; [done|done|].
    destruct Hwhere as [Hks|[->| ->]]; [|by eauto|by eauto].
    right. right. by eapply RaiseFacts.group_words_terminated.
  - apply RaiseFacts.bind_Raise in Hrest as [Hlb|(lbs & _ & [=])].
    pose proof (labels_encodable fp) as Hok.
    apply mapM_returns in Hok as [lbs Hlbs].
    unfold label_table, numbered in Hlbs. rewrite Hlbs in Hlb. discriminate.
Qed.

(** C4, amended.  [handle] returns exactly when (a) every non-blank line
    has two space-separated fields, (b) the first field of every non-blank
    line up to the last blank line is a key of [vocab2id], and (c) if the
    file has a blank line, "[CLS]" and "[SEP]" are keys of [vocab2id].
    Otherwise it raises: [IndexError] when (a) fails, and, when (a) holds
    and (b) or (c) fails, [KeyError] for a key that [vocab2id] lacks, which
    is "[CLS]", "[SEP]" or the first field of a non-blank line up to the
    last blank line; with "[CLS]" and "[SEP]" among the keys it is a token
    of the file.  Some file makes [handle] raise [KeyError] for a token of
    the file that is not a key.  The first field of every non-blank line
    of the training file is a key of the table [readVocab] builds. *)
Theorem handle_returns_iff :
  (∀ (vocab2id : gmap str nat) (fp : list str),
     returns (handle vocab2id fp) ↔
     Forall (λ l, ¬ blank l → 1 < length (fields l)) fp
     ∧ Forall (λ l, ¬ blank l → is_Some (vocab2id !! first_field l))
         (terminated fp)
     ∧ (terminated fp ≠ [] →
        is_Some (vocab2id !! py "[CLS]") ∧ is_Some (vocab2id !! py "[SEP]")))
  ∧ (∀ (vocab2id : gmap str nat) (fp : list str),
       ¬ Forall (λ l, ¬ blank l → 1 < length (fields l)) fp →
       handle vocab2id fp = Raise IndexError)
  ∧ (∀ (vocab2id : gmap str nat) (fp : list str),
       Forall (λ l, ¬ blank l → 1 < length (fields l)) fp →
       ¬ (Forall (λ l, ¬ blank l → is_Some (vocab2id !! first_field l))
            (terminated fp)
          ∧ (terminated fp ≠ [] →
             is_Some (vocab2id !! py "[CLS]")
             ∧ is_Some (vocab2id !! py "[SEP]"))) →
       ∃ k, handle vocab2id fp = Raise (KeyError k)
          ∧ vocab2id !! k = None
          ∧ (k = py "[CLS]" ∨ k = py "[SEP]"
             ∨ k ∈ first_field <$> filter (λ l, ¬ blank l) (terminated fp))
          ∧ (is_Some (vocab2id !! py "[CLS]") →
             is_Some (vocab2id !! py "[SEP]") →
             k ∈ first_field <$> filter (λ l, ¬ blank l) fp))
  ∧ (∃ (vocab2id : gmap str nat) (fp : list str) (k : str),
       k ∈ first_field <$> filter (λ l, ¬ blank l) fp
       ∧ vocab2id !! k = None
       ∧ handle vocab2id fp = Raise (KeyError k))
  ∧ (∀ (vocab_txt train_txt : list str),
       ∃ rv, readVocab vocab_txt train_txt = Ok rv
         ∧ Forall (λ l, ¬ blank l → is_Some (vocab2id rv !! first_field l))
             train_txt).
Proof.
  assert (∀ (vocab2id : gmap str nat) (fp : list str),
     returns (handle vocab2id fp) ↔
     Forall (λ l, ¬ blank l → 1 < length (fields l)) fp
     ∧ Forall (λ l, ¬ blank l → is_Some (vocab2id !! first_field l))
         (terminated fp)
     ∧ (terminated fp ≠ [] →
        is_Some (vocab2id !! py "[CLS]") ∧ is_Some (vocab2id !! py "[SEP]")))
    as Hiff.
  { intros vocab2id fp. rewrite handle_returns, words_encodable. tauto. }
  split_and!.
  - exact Hiff.
  - intros vocab2id fp Hshort.
    destruct (handle vocab2id fp) as [r|e] eqn:Hh.
    { destruct Hshort. apply (Hiff vocab2id fp). by exists r. }
    apply handle_Raise_cases in Hh as [[-> _]|[Hf _]]; [done|].
    by destruct Hshort.
  - intros vocab2id fp Hf Hkeys.
    destruct (handle vocab2id fp) as [r|e] eqn:Hh.
    { destruct Hkeys. apply (Hiff vocab2id fp). by exists r. }
    apply handle_Raise_cases in Hh as [[_ Hex]|(_ & k & -> & Hk & Hwhere)].
    { apply Exists_exists in Hex as (l & Hl & Hb & Hlen).
      eapply Forall_forall in Hf; [|exact Hl]. specialize (Hf Hb). lia. }
    exists k. split_and!; [done|done|done|].
    intros [c Hc] [p Hp].
    destruct Hwhere as [->|[->|Hk']]; [congruence|congruence|].
    apply list_elem_of_fmap in Hk' as (l & -> & Hl).
    apply list_elem_of_filter in Hl as [Hb Hl].
    apply list_elem_of_fmap. exists l. split; [done|].
    apply list_elem_of_filter. split; [done|].
    by apply RaiseFacts.terminated_elem.
  - exists ∅, [line "a O"; line ""], (py "a"). split_and!.
    + apply (bool_decide_unpack _). vm_compute. exact I.
    + apply lookup_empty.
    + reflexivity.
  - intros vocab_txt train_txt. eexists. split; [apply readVocab_eq|].
    cbn [vocab2id].
    apply Forall_forall. intros l Hl Hb. apply elem_of_dom.
    destruct (dense_table_numbered (collected vocab_txt train_txt)) as (Hd & _).
    rewrite Hd. unfold members, collected. apply elem_of_list_to_set, elem_of_app. right.
    apply list_elem_of_fmap. exists l. split; [done|].
    by apply list_elem_of_filter.
Qed.

End Termination.

(** C4 as stated fails in both directions.  The file whose only line is
    "zzz O", with no blank line after it, is handled without an exception
    under a vocabulary that lacks "zzz".  The file "a" / blank line raises
    [IndexError], and the file "a O" / blank line raises [KeyError] for
    "[CLS]", although every first field of either file is a key. *)
Lemma handle_returns_counterexample :
  let keys_present (vocab2id : gmap Py.str nat) (fp : list Py.str) :=
    Forall (λ l, ¬ Spec.blank l → is_Some (vocab2id !! Spec.first_field l)) fp
  in
  (Bert.handle (H:=Py.insertion_order) ∅ [Spec.line "zzz O"]
   = Py.Ok (Tuples.Build_handle_out [] []
              [Py.py "[CLS]"; Py.py "[SEP]"; Py.py "O"]
              {[ Py.py "[CLS]" := 1; Py.py "[SEP]" := 2; Py.py "O" := 3 ]}
              {[ 1 := Py.py "[CLS]"; 2 := Py.py "[SEP]"; 3 := Py.py "O" ]}
              3 [] [])
   ∧ ¬ keys_present ∅ [Spec.line "zzz O"])
  ∧ (Bert.handle (H:=Py.insertion_order)
       {[ Py.py "a" := 1; Py.py "[CLS]" := 2; Py.py "[SEP]" := 3 ]}
       [Spec.line "a"; Spec.line ""]
     = Py.Raise Py.IndexError
     ∧ keys_present
         {[ Py.py "a" := 1; Py.py "[CLS]" := 2; Py.py "[SEP]" := 3 ]}
         [Spec.line "a"; Spec.line ""])
  ∧ (Bert.handle (H:=Py.insertion_order) {[ Py.py "a" := 1 ]}
       [Spec.line "a O"; Spec.line ""]
     = Py.Raise (Py.KeyError (Py.py "[CLS]"))
     ∧ keys_present {[ Py.py "a" := 1 ]} [Spec.line "a O"; Spec.line ""]).
Proof.
  cbv zeta. split_and!.
  - vm_compute. reflexivity.
  - intros [Hkey _]%Forall_cons. destruct Hkey as [v Hv].
    + vm_compute. discriminate.
    + rewrite lookup_empty in Hv. discriminate.
  - vm_compute. reflexivity.
  - apply (bool_decide_unpack _). vm_compute. exact I.
  - vm_compute. reflexivity.
  - apply (bool_decide_unpack _). vm_compute. exact I.
Qed.

(** The theorems at the sample files. *)
Lemma tables_dense_witness :
  ∃ rv rh,
    Bert.readVocab (H:=Py.insertion_order) Examples.vocab_txt Examples.train_txt
      = Py.Ok rv
    ∧ Bert.handle (H:=Py.insertion_order) Examples.table Examples.train_txt
      = Py.Ok rh
    ∧ Spec.dense_table (H:=Py.insertion_order)
        (Tuples.vocab rv) (Tuples.vocab2id rv)
    ∧ Spec.dense_table (H:=Py.insertion_order)
        (Tuples.out_label_list rh) (Tuples.label2id rh).
Proof.
  eexists. eexists.
  split; [vm_compute; reflexivity|].
  split; [vm_compute; reflexivity|].
  apply (@tables_dense Py.insertion_order
           Examples.vocab_txt Examples.train_txt _
           Examples.table Examples.train_txt _).
  - vm_compute. reflexivity.
  - vm_compute. reflexivity.
Defined.

Lemma padding_layout_witness :
  ∃ rv rh,
    Bert.readVocab (H:=Py.insertion_order) Examples.vocab_txt Examples.train_txt
      = Py.Ok rv
    ∧ Bert.handle (H:=Py.insertion_order) (Tuples.vocab2id rv) Examples.train_txt
      = Py.Ok rh
    ∧ Forall (Spec.layout (Tuples.vocab2id rv)) (Tuples.input_ids rh)
    ∧ Forall (Spec.layout (Tuples.label2id rh)) (Tuples.label_ids rh).
Proof.
  eexists. eexists.
  split; [vm_compute; reflexivity|].
  split; [vm_compute; reflexivity|].
  apply (@padding_layout Py.insertion_order
           Examples.vocab_txt Examples.train_txt Examples.train_txt).
  - vm_compute. reflexivity.
  - vm_compute. reflexivity.
Defined.

Lemma unterminated_sentence_dropped_witness :
  ∃ r r0,
    Bert.handle (H:=Py.insertion_order) Examples.table Examples.train_txt
      = Py.Ok r
    ∧ Bert.handle (H:=Py.insertion_order) Examples.table
        (take 5 Examples.train_txt) = Py.Ok r0
    ∧ Tuples.out_words r = Tuples.out_words r0
    ∧ Tuples.input_ids r = Tuples.input_ids r0
    ∧ length (Tuples.out_words r) = 2.
Proof.
  destruct (@unterminated_sentence_dropped Py.insertion_order
              Examples.table (take 5 Examples.train_txt)
              (drop 5 Examples.train_txt)
              (match Bert.handle (H:=Py.insertion_order)
                       Examples.table Examples.train_txt with
               | Py.Ok r => r
               | Py.Raise _ =>
                   Tuples.Build_handle_out [] [] [] ∅ ∅ 0 [] []
               end))
    as (r0 & Hr0 & Hw & _ & Hin & _ & _ & Hlen & _).
  - repeat constructor; vm_compute; discriminate.
  - vm_compute. reflexivity.
  - eexists. exists r0. split; [vm_compute; reflexivity|].
    split; [exact Hr0|]. split; [exact Hw|]. split; [exact Hin|].
    exact Hlen.
Defined.

Lemma handle_returns_iff_witness :
  Py.returns
    (Bert.handle (H:=Py.insertion_order) Examples.table Examples.train_txt)
  ∧ ¬ Py.returns
      (Bert.handle (H:=Py.insertion_order) ∅ (take 5 Examples.train_txt))
  ∧ Bert.handle (H:=Py.insertion_order) Examples.table
      (Spec.line "a" :: Examples.train_txt) = Py.Raise Py.IndexError
  ∧ ∃ k, Bert.handle (H:=Py.insertion_order)
           {[ Py.py "[CLS]" := 1; Py.py "[SEP]" := 2 ]}
           (take 5 Examples.train_txt) = Py.Raise (Py.KeyError k)
       ∧ k ∈ Spec.first_field
             <$> filter (λ l, ¬ Spec.blank l) (take 5 Examples.train_txt).
Proof.
  destruct (@handle_returns_iff Py.insertion_order)
    as (Hiff & Hindex & Hkey & _ & _).
  split_and!.
  - apply Hiff. split_and!.
    + apply (bool_decide_unpack _). vm_compute. exact I.
    + apply (bool_decide_unpack _). vm_compute. exact I.
    + intros _. split; apply (bool_decide_unpack _); vm_compute; exact I.
  - intros Hret. apply Hiff in Hret as (_ & Hkeys & _).
    apply Forall_cons in Hkeys as [Hkey' _].
    destruct Hkey' as [v Hv].
    + vm_compute. discriminate.
    + rewrite lookup_empty in Hv. discriminate.
  - apply Hindex. intros [Hf _]%Forall_cons.
    assert (1 < length (Spec.fields (Spec.line "a"))) as Hlen.
    { apply Hf. vm_compute. discriminate. }
    vm_compute in Hlen. lia.
  - destruct (Hkey {[ Py.py "[CLS]" := 1; Py.py "[SEP]" := 2 ]}
                (take 5 Examples.train_txt))
      as (k & Hk & _ & _ & Htoken).
    + apply (bool_decide_unpack _). vm_compute. exact I.
    + intros [Hkeys _]. apply Forall_cons in Hkeys as [Hkey' _].
      destruct Hkey' as [v Hv].
      * vm_compute. discriminate.
      * vm_compute in Hv. discriminate.
    + exists k. split; [exact Hk|].
      apply Htoken; apply (bool_decide_unpack _); vm_compute; exact I.
Defined.

(* ===================================================================== *)
(** * The model classes                                                   *)
(* ===================================================================== *)

Section Models.
Import Py Torch ModelSpec.
Context `{Library}.

(** Unfolds the sequencing of library calls and follows each call to its
    two outcomes. *)
Ltac follow_calls :=
  unfold first_of, crf_head, mbind, torch_bind, mret, torch_ret;
  repeat (case_match; simplify_eq/=; try done).

(** In each class of the BERT notebook [forward] is the CRF head applied
    to the output of the stack of layers the class is named after. *)
Lemma BertCRFNer_forward (self : Bert.BertCRFNer.t) (x tags : value) g :
  Bert.BertCRFNer.forward self x tags g =
  (first_of (BertModel_call (Bert.BertCRFNer.bert self) x)
   ≫= crf_head (Bert.BertCRFNer.crf self) tags) g.
Proof. unfold Bert.BertCRFNer.forward. follow_calls. Qed.

Lemma BertBiLSTMCRFNer_forward (self : Bert.BertBiLSTMCRFNer.t)
    (x tags : value) g :
  Bert.BertBiLSTMCRFNer.forward self x tags g =
  (first_of (first_of (BertModel_call (Bert.BertBiLSTMCRFNer.bert self) x)
             ≫= LSTM_call (Bert.BertBiLSTMCRFNer.bilstm self))
   ≫= crf_head (Bert.BertBiLSTMCRFNer.crf self) tags) g.
Proof. unfold Bert.BertBiLSTMCRFNer.forward. follow_calls. Qed.

Lemma BertBiGRUCRFNer_forward (self : Bert.BertBiGRUCRFNer.t)
    (x tags : value) g :
  Bert.BertBiGRUCRFNer.forward self x tags g =
  (first_of (first_of (BertModel_call (Bert.BertBiGRUCRFNer.bert self) x)
             ≫= GRU_call (Bert.BertBiGRUCRFNer.bigru self))
   ≫= crf_head (Bert.BertBiGRUCRFNer.crf self) tags) g.
Proof. unfold Bert.BertBiGRUCRFNer.forward. follow_calls. Qed.

Lemma BertBiGRUSelfAttentionCRFNer_forward
    (self : Bert.BertBiGRUSelfAttentionCRFNer.t) (x tags : value) g :
  Bert.BertBiGRUSelfAttentionCRFNer.forward self x tags g =
  (first_of
     (first_of
        (BertModel_call (Bert.BertBiGRUSelfAttentionCRFNer.bert self) x)
      ≫= GRU_call (Bert.BertBiGRUSelfAttentionCRFNer.bigru self))
   ≫= (λ output,
         Bert.SelfAttention.forward
           (Bert.BertBiGRUSelfAttentionCRFNer.selfattention self) output
         ≫= crf_head (Bert.BertBiGRUSelfAttentionCRFNer.crf self) tags)) g.
Proof. unfold Bert.BertBiGRUSelfAttentionCRFNer.forward. follow_calls. Qed.

(** The same holds in the ALBERT notebooks, for the three plain classes and
    for the later revision of the self-attention class. *)
Lemma AlBertCRFNer_forward (self : AlBert.AlBertCRFNer.t) (x tags : value) g :
  AlBert.AlBertCRFNer.forward self x tags g =
  (first_of (AlbertModel_call (AlBert.AlBertCRFNer.albert self) x)
   ≫= crf_head (AlBert.AlBertCRFNer.crf self) tags) g.
Proof. unfold AlBert.AlBertCRFNer.forward. follow_calls. Qed.

Lemma AlBertBiLSTMCRFNer_forward (self : AlBert.AlBertBiLSTMCRFNer.t)
    (x tags : value) g :
  AlBert.AlBertBiLSTMCRFNer.forward self x tags g =
  (first_of
     (first_of (AlbertModel_call (AlBert.AlBertBiLSTMCRFNer.albert self) x)
      ≫= LSTM_call (AlBert.AlBertBiLSTMCRFNer.bilstm self))
   ≫= crf_head (AlBert.AlBertBiLSTMCRFNer.crf self) tags) g.
Proof. unfold AlBert.AlBertBiLSTMCRFNer.forward. follow_calls. Qed.

Lemma AlBertBiGRUCRFNer_forward (self : AlBert.AlBertBiGRUCRFNer.t)
    (x tags : value) g :
  AlBert.AlBertBiGRUCRFNer.forward self x tags g =
  (first_of
     (first_of (AlbertModel_call (AlBert.AlBertBiGRUCRFNer.albert self) x)
      ≫= GRU_call (AlBert.AlBertBiGRUCRFNer.bigru self))
   ≫= crf_head (AlBert.AlBertBiGRUCRFNer.crf self) tags) g.
Proof. unfold AlBert.AlBertBiGRUCRFNer.forward. follow_calls. Qed.

Lemma AlBertBiGRUSelfAttentionCRFNer_rev_forward
    (self : AlBert.AlBertBiGRUSelfAttentionCRFNer_rev.t) (x tags : value) g :
  AlBert.AlBertBiGRUSelfAttentionCRFNer_rev.forward self x tags g =
  (first_of
     (first_of
        (AlbertModel_call
           (AlBert.AlBertBiGRUSelfAttentionCRFNer_rev.albert self) x)
      ≫= GRU_call (AlBert.AlBertBiGRUSelfAttentionCRFNer_rev.bigru self))
   ≫= (λ output,
         AlBert.SelfAttention.forward
           (AlBert.AlBertBiGRUSelfAttentionCRFNer_rev.selfattention self) output
         ≫= crf_head (AlBert.AlBertBiGRUSelfAttentionCRFNer_rev.crf self) tags)) g.
Proof. unfold AlBert.AlBertBiGRUSelfAttentionCRFNer_rev.forward. follow_calls. Qed.

(** C5, at the class where it fails.  [AlBertBiGRUSelfAttentionCRFNer] of
    [albert-ner.ipynb] passes to the GRU layer the whole tuple the encoder
    returns: when the encoder returns a tuple and the GRU layer raises on
    a tuple, [forward] raises for every input, with or without tags, and
    returns neither a decoding nor a negated CRF value. *)
Theorem AlBertBiGRUSelfAttentionCRFNer_forward_raises
    (self : AlBert.AlBertBiGRUSelfAttentionCRFNer.t) (x tags : value) g :
  (∀ m x g, ∃ items g', AlbertModel_call m x g = Ok (VTuple items, g')) →
  (∀ m items g, raises (GRU_call m (VTuple items)) g) →
  raises (AlBert.AlBertBiGRUSelfAttentionCRFNer.forward self x tags) g.
Proof.
  intros Halbert Hgru. unfold raises, AlBert.AlBertBiGRUSelfAttentionCRFNer.forward.
  destruct (Halbert (AlBert.AlBertBiGRUSelfAttentionCRFNer.albert self) x g)
    as (items & g' & Hy).
  destruct (Hgru (AlBert.AlBertBiGRUSelfAttentionCRFNer.bigru self) items g')
    as (e & He).
  exists e. unfold mbind, torch_bind. rewrite Hy, He. reflexivity.
Qed.

End Models.

Lemma AlBertBiGRUSelfAttentionCRFNer_forward_raises_witness :
  ModelSpec.raises
    (AlBert.AlBertBiGRUSelfAttentionCRFNer.forward (H0:=ModelSpec.toy)
       ModelSpec.toy_model ModelSpec.toy_input Torch.VNone) 0
  ∧ AlBert.AlBertBiGRUSelfAttentionCRFNer_rev.forward (H0:=ModelSpec.toy)
       ModelSpec.toy_model_rev ModelSpec.toy_input Torch.VNone 0
     = Py.Ok (ModelSpec.toy_decoding, 3).
Proof.
  split.
  - apply (@AlBertBiGRUSelfAttentionCRFNer_forward_raises
             ModelSpec.toy_types ModelSpec.toy).
    + intros m x g. by exists [x; x], g.
    + intros m items g. by exists Py.AttributeError.
  - vm_compute. reflexivity.
Defined.

(* ===================================================================== *)
(** * The dataset                                                         *)
(* ===================================================================== *)

Section Dataset.
Import Py BertNerDataset.

Lemma select_row_in_range (x : tensor2) (i : nat) (row : list Z) :
  x !! i = Some row → select_row x (Z.of_nat i) = Ok row.
Proof.
  intros Hrow. pose proof (lookup_lt_Some _ _ _ Hrow) as Hlt.
  unfold select_row, len. cbv zeta. rewrite decide_True by lia.
  rewrite Nat2Z.id. by apply PyFacts.getitem_Ok.
Qed.

Lemma select_row_out_of_range (x : tensor2) (i : nat) :
  length x ≤ i → select_row x (Z.of_nat i) = Raise IndexError.
Proof.
  intros Hge. unfold select_row, len. cbv zeta.
  rewrite decide_False by lia. by rewrite decide_False by lia.
Qed.


End Dataset.



(* ===================================================================== *)
(** * The two copies of the data preparation                              *)
(* ===================================================================== *)

(** C10.  [readVocab] and [handle] of the ALBERT notebooks return, for all
    file contents (and the same vocabulary table and set iteration order),
    what those of the BERT notebook return, with the same sequence
    length. *)
Theorem preparation_shared `{Py.SetOrder} :
  AlBert.max_seq_length = Bert.max_seq_length
  ∧ (∀ vocab_txt train_txt : list Py.str,
       AlBert.readVocab vocab_txt train_txt
       = Bert.readVocab vocab_txt train_txt)
  ∧ (∀ (vocab2id : gmap Py.str nat) (fp : list Py.str),
       AlBert.handle vocab2id fp = Bert.handle vocab2id fp).
Proof.
  split_and!.
  - reflexivity.
  - intros vocab_txt train_txt. reflexivity.
  - intros vocab2id fp. reflexivity.
Qed.

(* ===================================================================== *)
(** * Further properties of the data preparation                          *)
(* ===================================================================== *)

Module InverseFacts.
Import Py Tuples Spec Bert PyFacts DictFacts VocabFacts ReaderFacts EncodeFacts
  HandleFacts.

(** The items [(f i, data)] of the reverse comprehension. *)
Lemma elem_of_reverse_items (f : nat → nat) (l : list str) (i : nat) (w : str) :
  (i, w) ∈ (λ '(j, data), (f j, data)) <$> enumerate l
  ↔ ∃ j, l !! j = Some w ∧ i = f j.
Proof.
  unfold enumerate. rewrite list_elem_of_fmap. split.
  - intros ([j data] & [= -> ->] & Hin).
    apply elem_of_lookup_imap in Hin as (j' & y & [= -> ->] & Hj). eauto.
  - intros (j & Hj & ->). exists (j, w). split; [done|].
    apply elem_of_lookup_imap. eauto.
Qed.

Lemma reverse_items_keys (f : nat → nat) (l : list str) :
  ((λ '(j, data), (f j, data)) <$> enumerate l).*1 = f <$> seq 0 (length l).
Proof.
  unfold enumerate. apply list_eq. intros i.
  rewrite !list_lookup_fmap, list_lookup_imap.
  destruct (l !! i) as [w|] eqn:Hi; simpl.
  - rewrite lookup_seq_lt by by eapply lookup_lt_Some. done.
  - rewrite lookup_seq_ge by by apply lookup_ge_None. done.
Qed.

Lemma reverse_table_lookup (l : list str) (i : nat) (w : str) :
  dict_of ((λ '(j, data), (1 + j, data)) <$> enumerate l) !! i = Some w
  ↔ ∃ j, l !! j = Some w ∧ i = 1 + j.
Proof.
  rewrite dict_of_lookup.
  - apply (elem_of_reverse_items (λ j, 1 + j)).
  - rewrite (reverse_items_keys (λ j, 1 + j)).
    apply NoDup_fmap_2; [|apply NoDup_seq]. intros a b. lia.
Qed.

(** The forward and the reverse table of one enumeration are inverse. *)
Lemma tables_inverse (f : nat → nat) (l : list str) (w : str) (i : nat) :
  NoDup l → (∀ j, f j = 1 + j) →
  dict_of (numbered f l) !! w = Some i
  ↔ dict_of ((λ '(j, data), (1 + j, data)) <$> enumerate l) !! i = Some w.
Proof.
  intros Hnd Hf. rewrite table_lookup by done. rewrite reverse_table_lookup.
  split; intros (j & Hj & ->); exists j; by rewrite ?Hf.
Qed.

Section Handle.
Context `{SetOrder}.

Lemma handle_id2label (vocab2id : gmap str nat) (fp : list str) (r : handle_out) :
  handle vocab2id fp = Ok r →
  id2label r =
  dict_of ((λ '(j, data), (1 + j, data))
             <$> enumerate (set_iter (collected_labels fp))).
Proof.
  unfold handle. intros Hh.
  apply bind_Ok in Hh as (st & Hst & Hh).
  apply bind_Ok in Hh as (ins & Hins & Hh).
  apply bind_Ok in Hh as (lbs & Hlbs & [= <-]).
  apply reader_initial in Hst as (_ & _ & Hs). simpl. by rewrite Hs.
Qed.

End Handle.

(** Sentences of words and of labels have the same shape. *)
Lemma group_same_shape (f g : str → str) (cur cur' : list str) (fp : list str) :
  length cur = length cur' →
  Forall2 (λ a b, length a = length b) (group f cur fp) (group g cur' fp).
Proof.
  revert cur cur'. induction fp as [|l rest IH]; intros cur cur' Hlen; simpl.
  - constructor.
  - destruct (decide (blank l)).
    + constructor; [done|]. by apply IH.
    + apply IH. rewrite !length_app. simpl. lia.
Qed.

End InverseFacts.

Section PreparationExtras.
Import Py Tuples Spec Bert PyFacts DictFacts VocabFacts ReaderFacts EncodeFacts
  HandleFacts SentenceFacts LayoutFacts InverseFacts.
Context `{SetOrder}.

(** X1.  The two tables of [readVocab] are inverse to each other:
    [vocab2id[w] = i] exactly when [id2vocab[i] = w]. *)
Theorem readVocab_tables_inverse (vocab_txt train_txt : list str) :
  ∃ r, readVocab vocab_txt train_txt = Ok r
    ∧ ∀ w i, vocab2id r !! w = Some i ↔ id2vocab r !! i = Some w.
Proof.
  eexists. split; [apply readVocab_eq|]. cbn [vocab2id id2vocab].
  intros w i. apply tables_inverse; [apply set_iter_NoDup | done].
Qed.

(** X2.  The two label tables of [handle] are inverse to each other:
    [label2id[t] = i] exactly when [id2label[i] = t]. *)
Theorem handle_tables_inverse (d : gmap str nat) (fp : list str)
    (r : handle_out) :
  handle d fp = Ok r →
  ∀ t i, label2id r !! t = Some i ↔ id2label r !! i = Some t.
Proof.
  intros Hh t i. rewrite (handle_id2label _ _ _ Hh).
  apply handle_inv in Hh as (_ & _ & _ & -> & _).
  unfold label_table. apply tables_inverse; [apply set_iter_NoDup|].
  intros j. lia.
Qed.

(** X3.  [handle] returns as many label sentences as word sentences, and
    the k-th label sentence has as many labels as the k-th word sentence
    has words. *)
Theorem handle_words_labels_aligned (d : gmap str nat) (fp : list str)
    (r : handle_out) :
  handle d fp = Ok r →
  Forall2 (λ ws ls, length ws = length ls) (out_words r) (out_labels r).
Proof.
  intros Hh. apply handle_inv in Hh as (-> & -> & _).
  by apply group_same_shape.
Qed.

(** X4.  The keys of [label2id] are "[CLS]", "[SEP]" and the second field
    of every non-blank line of the file, also of the lines after the last
    blank line, whose sentence is not returned; [label_size] is their
    number, at least 2 ("[CLS]" and "[SEP]" are two keys). *)
Theorem handle_label_keys (d : gmap str nat) (fp : list str) (r : handle_out) :
  handle d fp = Ok r →
  dom (label2id r) =
    {[ py "[CLS]"; py "[SEP]" ]}
    ∪ list_to_set (second_field <$> filter (λ l, ¬ blank l) fp)
  ∧ label_size r = size (dom (label2id r))
  ∧ 2 ≤ label_size r.
Proof.
  intros Hh. pose proof (handle_label_dense _ _ _ Hh) as (Hdom & Hsize & _).
  apply handle_inv in Hh as (_ & _ & Hl & _ & Hls & _).
  rewrite Hl in Hdom, Hsize. rewrite Hls, <- Hsize. clear Hsize.
  assert (dom (label2id r) =
    {[ py "[CLS]"; py "[SEP]" ]}
    ∪ list_to_set (second_field <$> filter (λ l, ¬ blank l) fp)) as Hkeys.
  { rewrite Hdom. unfold members, collected_labels.
    rewrite list_to_set_app_L. f_equal. }
  split_and!; [done | done |].
  rewrite Hkeys.
  etrans; [|apply (subseteq_size {[ py "[CLS]"; py "[SEP]" ]});
            apply union_subseteq_l].
  rewrite size_union by (apply disjoint_singleton_l;
    rewrite elem_of_singleton; by vm_compute).
  by rewrite !size_singleton.
Qed.

End PreparationExtras.

(* ===================================================================== *)
(** * Which exception [handle] raises                                     *)
(* ===================================================================== *)

Section Exceptions.
Import Py Tuples Spec Bert PyFacts DictFacts VocabFacts ReaderFacts EncodeFacts
  HandleFacts SentenceFacts InverseFacts RaiseFacts.
Context `{SetOrder}.

(** X5.  [handle] raises [IndexError] exactly when some non-blank line has
    fewer than two fields, whatever the vocabulary is.  Any other exception
    it raises is a [KeyError] for a key missing from [vocab2id] that is
    "[CLS]", "[SEP]" or the first field of a non-blank line up to the last
    blank line; the label lookups never raise. *)
Theorem handle_raises (d : gmap str nat) (fp : list str) :
  (handle d fp = Raise IndexError
   ↔ Exists (λ l, ¬ blank l ∧ length (fields l) < 2) fp)
  ∧ (∀ e, handle d fp = Raise e →
       e = IndexError
       ∨ ∃ k, e = KeyError k ∧ d !! k = None
              ∧ (k = py "[CLS]" ∨ k = py "[SEP]"
                 ∨ k ∈ first_field
                       <$> filter (λ l, ¬ blank l) (terminated fp))).
Proof.
  assert (∀ e, handle d fp = Raise e →
       (e = IndexError ∧ Exists (λ l, ¬ blank l ∧ length (fields l) < 2) fp)
       ∨ (Forall (λ l, ¬ blank l → 1 < length (fields l)) fp
          ∧ ∃ k, e = KeyError k ∧ d !! k = None
              ∧ (k = py "[CLS]" ∨ k = py "[SEP]"
                 ∨ k ∈ first_field
                       <$> filter (λ l, ¬ blank l) (terminated fp)))) as Hcases.
  { intros e. unfold handle.
    intros [Hr|(st & Hst & Hrest)]%bind_Raise.
    { left. by apply (reader_Raise reader0). }
    right. split.
    { apply (reader_returns reader0). by exists st. }
    apply reader_initial in Hst as (Hw & Hl & Hs). rewrite Hw, Hl, Hs in Hrest.
    apply bind_Raise in Hrest as [Hin|(ins & _ & Hrest)].
    - apply mapM_Raise in Hin as (s & Hs' & He).
      apply encode_Raise in He as (k & -> & Hk & Hwhere).
      exists k. split_and!; [done|done|].
      destruct Hwhere as [Hks|[->| ->]]; [|by eauto|by eauto].
      right. right. by eapply group_words_terminated.
    - apply bind_Raise in Hrest as [Hlb|(lbs & _ & [=])].
      pose proof (labels_encodable fp) as Hok.
      apply mapM_returns in Hok as [lbs Hlbs].
      unfold label_table, numbered in Hlbs. rewrite Hlbs in Hlb. discriminate. }
  split.
  - split.
    + intros Hr. apply Hcases in Hr as [[_ Hex]|(_ & k & [=] & _)]. done.
    + intros Hex.
      destruct (not_returns_Raise (handle d fp)) as [e He].
      { intros [Hf _]%handle_returns.
        apply Exists_exists in Hex as (l & Hl & Hb & Hlen).
        eapply Forall_forall in Hf; [|exact Hl]. specialize (Hf Hb). lia. }
      destruct (Hcases e He) as [[-> _]|(Hf & _)]; [done|].
      apply Exists_exists in Hex as (l & Hl & Hb & Hlen).
      eapply Forall_forall in Hf; [|exact Hl]. specialize (Hf Hb). lia.
  - intros e He. destruct (Hcases e He) as [[-> _]|(_ & Hk)]; [by left|by right].
Qed.

End Exceptions.

(* ===================================================================== *)
(** * The two preparation steps together                                  *)
(* ===================================================================== *)

Module PipelineFacts.
Import Py Tuples Spec Bert PyFacts DictFacts VocabFacts ReaderFacts EncodeFacts
  HandleFacts SentenceFacts LayoutFacts InverseFacts RaiseFacts.

Section Pipeline.
Context `{SetOrder}.

Lemma readVocab_keys (vocab_txt train_txt : list str) (rv : vocab_out)
    (w : str) :
  readVocab vocab_txt train_txt = Ok rv →
  is_Some (vocab2id rv !! w) ↔ w ∈ collected vocab_txt train_txt.
Proof.
  intros Hv. pose proof (readVocab_dense _ _ _ Hv) as (Hdom & _).
  rewrite readVocab_eq in Hv. injection Hv as <-. cbn [vocab] in Hdom.
  rewrite <- elem_of_dom, Hdom. unfold members. apply elem_of_list_to_set.
Qed.

Lemma readVocab_inverse (vocab_txt train_txt : list str) (rv : vocab_out)
    (w : str) (i : nat) :
  readVocab vocab_txt train_txt = Ok rv →
  vocab2id rv !! w = Some i ↔ id2vocab rv !! i = Some w.
Proof.
  rewrite readVocab_eq. intros [= <-]. cbn [vocab2id id2vocab].
  apply tables_inverse; [apply set_iter_NoDup | done].
Qed.

Lemma handle_inverse (d : gmap str nat) (fp : list str) (r : handle_out)
    (t : str) (i : nat) :
  handle d fp = Ok r →
  label2id r !! t = Some i ↔ id2label r !! i = Some t.
Proof.
  intros Hh. rewrite (handle_id2label _ _ _ Hh).
  apply handle_inv in Hh as (_ & _ & _ & -> & _).
  unfold label_table. apply tables_inverse; [apply set_iter_NoDup|].
  intros j. lia.
Qed.

(** The id at a position of an encoded sentence. *)
Lemma encoding_lookup (table : gmap str nat) (s : list str) (ids : list nat)
    (j : nat) (w : str) :
  encoding table s ids → s !! j = Some w → j < max_seq_length - 2 →
  ∃ i, ids !! (1 + j) = Some i ∧ table !! w = Some i.
Proof.
  intros (toks & cls & sep & Htoks & _ & _ & ->) Hw Hj.
  destruct (Forall2_lookup_l _ _ _ _ _ Htoks Hw) as (i & Hi & Hwi).
  rewrite max_seq_length_eq in *. change (202 - 2) with 200 in *.
  exists i. split; [|done]. simpl.
  rewrite lookup_app_l.
  - by rewrite lookup_take_lt.
  - rewrite length_take. apply lookup_lt_Some in Hi. lia.
Qed.

(** The positions of the zeros of an encoded sentence depend on its length
    only. *)
Lemma encoding_zeros (table : gmap str nat) (s : list str) (ids : list nat)
    (i : nat) :
  (∀ k v, table !! k = Some v → 1 ≤ v) →
  encoding table s ids →
  ids !! i = Some 0 ↔ length s `min` 200 < i < 201.
Proof.
  intros Hpos (toks & cls & sep & Htoks & Hcls & Hsep & ->).
  pose proof (Forall2_length _ _ _ Htoks) as Hlen.
  rewrite max_seq_length_eq. change (202 - 2) with 200.
  rewrite zeros_between.
  - rewrite length_take. lia.
  - by eapply Hpos.
  - by eapply Hpos.
  - apply Forall_take. eapply Forall2_Forall_r; [exact Htoks|].
    apply Forall_forall. intros w _ t Ht. by eapply Hpos.
Qed.

(** The encoding of a sentence is that of its first [max_seq_length - 2]
    tokens. *)
Lemma encoding_take (table : gmap str nat) (s : list str) (ids : list nat) :
  encoding table s ids → encoding table (take (max_seq_length - 2) s) ids.
Proof.
  intros (toks & cls & sep & Htoks & Hcls & Hsep & ->).
  pose proof (Forall2_length _ _ _ Htoks) as Hlen.
  exists (take (max_seq_length - 2) toks), cls, sep.
  split_and!; try done.
  - by apply Forall2_take.
  - rewrite max_seq_length_eq. change (202 - 2) with 200.
    rewrite take_take, length_take. rewrite Nat.min_id.
    by replace (200 - 200 `min` length toks) with (200 - length toks) by lia.
Qed.

Lemma encoding_functional (table : gmap str nat) (s : list str)
    (ids ids' : list nat) :
  encoding table s ids → encoding table s ids' → ids = ids'.
Proof.
  intros H1%encode_Ok H2%encode_Ok. congruence.
Qed.

End Pipeline.
End PipelineFacts.

Section PipelineExtras.
Import Py Tuples Spec Bert PyFacts DictFacts VocabFacts ReaderFacts EncodeFacts
  HandleFacts SentenceFacts LayoutFacts InverseFacts RaiseFacts PipelineFacts.
Context `{SetOrder}.

(** X6.  When the vocabulary file has the lines "[CLS]" and "[SEP]",
    [handle] run on the training file with the table [readVocab] built
    from that same training file raises no [KeyError]: it returns exactly
    when every non-blank line of the training file has two fields. *)
Theorem pipeline_returns (vocab_txt train_txt : list str) :
  py "[CLS]" ∈ strip <$> vocab_txt →
  py "[SEP]" ∈ strip <$> vocab_txt →
  ∃ rv, readVocab vocab_txt train_txt = Ok rv
    ∧ (returns (handle (vocab2id rv) train_txt)
       ↔ Forall (λ l, ¬ blank l → 1 < length (fields l)) train_txt).
Proof.
  intros Hcls Hsep. eexists. split; [apply readVocab_eq|].
  pose proof (readVocab_eq vocab_txt train_txt) as Hv.
  rewrite handle_returns, words_encodable. split; [tauto|].
  intros Hf. split_and!; [done| |].
  - apply Forall_forall. intros l Hl Hb.
    apply (readVocab_keys _ _ _ _ Hv). unfold collected.
    apply elem_of_app. right. apply list_elem_of_fmap. exists l.
    split; [done|]. apply list_elem_of_filter.
    split; [done | by apply terminated_elem].
  - intros _.
    split; apply (readVocab_keys _ _ _ _ Hv); unfold collected;
      apply elem_of_app; by left.
Qed.

(** X7.  Decoding undoes encoding on the kept positions.  With the tables
    of [readVocab] and [handle], for the j-th word of the k-th sentence,
    j below [max_seq_length - 2], [id2vocab] maps the id at position 1+j
    of the k-th row of [input_ids] back to that word; likewise [id2label]
    and [label_ids] for the labels. *)
Theorem decode_round_trip (vocab_txt train_txt fp : list str) (rv : vocab_out)
    (rh : handle_out) :
  readVocab vocab_txt train_txt = Ok rv →
  handle (vocab2id rv) fp = Ok rh →
  (∀ k ws ids j w,
     out_words rh !! k = Some ws → input_ids rh !! k = Some ids →
     ws !! j = Some w → j < max_seq_length - 2 →
     ∃ i, ids !! (1 + j) = Some i ∧ id2vocab rv !! i = Some w)
  ∧ (∀ k ls ids j t,
       out_labels rh !! k = Some ls → label_ids rh !! k = Some ids →
       ls !! j = Some t → j < max_seq_length - 2 →
       ∃ i, ids !! (1 + j) = Some i ∧ id2label rh !! i = Some t).
Proof.
  intros Hv Hh.
  pose proof (handle_inv _ _ _ Hh) as (_ & _ & _ & _ & _ & Hin & Hlb).
  split.
  - intros k ws ids j w Hws Hids Hw Hj.
    pose proof (Forall2_lookup_lr _ _ _ _ _ _ Hin Hws Hids) as Henc.
    destruct (encoding_lookup _ _ _ _ _ Henc Hw Hj) as (i & Hi & Hwi).
    exists i. split; [done|]. by apply (readVocab_inverse _ _ _ _ _ Hv).
  - intros k ls ids j t Hls Hids Ht Hj.
    pose proof (Forall2_lookup_lr _ _ _ _ _ _ Hlb Hls Hids) as Henc.
    destruct (encoding_lookup _ _ _ _ _ Henc Ht Hj) as (i & Hi & Hti).
    exists i. split; [done|]. by apply (handle_inverse _ _ _ _ _ Hh).
Qed.

(** X8.  Padding is aligned: with the table of [readVocab], a position of
    the k-th row of [input_ids] holds 0 exactly when the same position of
    the k-th row of [label_ids] holds 0. *)
Theorem padding_aligned (vocab_txt train_txt fp : list str) (rv : vocab_out)
    (rh : handle_out) (k i : nat) (ids lids : list nat) :
  readVocab vocab_txt train_txt = Ok rv →
  handle (vocab2id rv) fp = Ok rh →
  input_ids rh !! k = Some ids → label_ids rh !! k = Some lids →
  ids !! i = Some 0 ↔ lids !! i = Some 0.
Proof.
  intros Hv Hh Hids Hlids.
  pose proof (readVocab_dense _ _ _ Hv) as Hdv.
  pose proof (handle_label_dense _ _ _ Hh) as Hdl.
  pose proof (handle_inv _ _ _ Hh) as (Hw & Hl & _ & _ & _ & Hin & Hlb).
  destruct (Forall2_lookup_r _ _ _ _ _ Hin Hids) as (ws & Hws & Henc).
  destruct (Forall2_lookup_r _ _ _ _ _ Hlb Hlids) as (ls & Hls & Hlenc).
  assert (length ws = length ls) as Hlen.
  { assert (Forall2 (λ a b, length a = length b) (out_words rh) (out_labels rh))
      as Hshape by (rewrite Hw, Hl; by apply group_same_shape).
    by eapply Forall2_lookup_lr in Hshape. }
  rewrite (encoding_zeros _ _ _ _ (λ k v, dense_table_positive _ _ k v Hdv) Henc).
  rewrite (encoding_zeros _ _ _ _ (λ k v, dense_table_positive _ _ k v Hdl) Hlenc).
  by rewrite Hlen.
Qed.

(** X9.  Truncation loses the tail: two returned sentences whose first
    [max_seq_length - 2] words agree have the same row of [input_ids]. *)
Theorem truncation_collision (d : gmap str nat) (fp : list str)
    (r : handle_out) (k k' : nat) (s s' : list str) (row row' : list nat) :
  handle d fp = Ok r →
  out_words r !! k = Some s → out_words r !! k' = Some s' →
  input_ids r !! k = Some row → input_ids r !! k' = Some row' →
  take (max_seq_length - 2) s = take (max_seq_length - 2) s' →
  row = row'.
Proof.
  intros Hh Hs Hs' Hrow Hrow' Htake.
  pose proof (handle_inv _ _ _ Hh) as (_ & _ & _ & _ & _ & Hin & _).
  pose proof (Forall2_lookup_lr _ _ _ _ _ _ Hin Hs Hrow) as Henc.
  pose proof (Forall2_lookup_lr _ _ _ _ _ _ Hin Hs' Hrow') as Henc'.
  apply encoding_take in Henc, Henc'. rewrite Htake in Henc.
  by eapply encoding_functional.
Qed.

End PipelineExtras.

(* ===================================================================== *)
(** * The shape of words and labels                                       *)
(* ===================================================================== *)

Module FieldFacts.
Import Py Tuples Spec Bert PyFacts ReaderFacts SentenceFacts.

Lemma lstrip_head (s : str) (c : char) (t : str) :
  lstrip s = c :: t → isspace c = false.
Proof.
  induction s as [|a s IH]; simpl; [discriminate|].
  destruct (isspace a) eqn:Ha; [exact IH|]. by intros [= <- _].
Qed.

Lemma lstrip_suffix (s : str) : ∃ p, s = p ++ lstrip s.
Proof.
  induction s as [|a s [p IH]]; simpl; [by exists []|].
  destruct (isspace a).
  - exists (a :: p). simpl. by rewrite <- IH.
  - by exists [].
Qed.

Lemma rstrip_prefix (s : str) : ∃ q, s = rstrip s ++ q.
Proof.
  unfold rstrip. destruct (lstrip_suffix (rev s)) as [p Hp].
  exists (rev p). rewrite <- rev_app_distr, <- Hp. by rewrite rev_involutive.
Qed.

(** A stripped line does not start with whitespace. *)
Lemma strip_head (s : str) (c : char) (t : str) :
  strip s = c :: t → isspace c = false.
Proof.
  unfold strip. intros Hs. destruct (rstrip_prefix (lstrip s)) as [q Hq].
  rewrite Hs in Hq. simpl in Hq. by eapply lstrip_head.
Qed.

Lemma split_no_sep (sep : char) (s : str) (w : str) :
  w ∈ split sep s → sep ∉ w.
Proof.
  revert w. induction s as [|c s IH]; intros w; simpl.
  - intros ->%list_elem_of_singleton. apply not_elem_of_nil.
  - destruct (c =? sep)%N eqn:Hc.
    + intros [->|Hw]%elem_of_cons; [apply not_elem_of_nil | by apply IH].
    + apply N.eqb_neq in Hc.
      destruct (split sep s) as [|w0 ws]; simpl.
      * intros ->%list_elem_of_singleton.
        intros ->%list_elem_of_singleton. done.
      * intros [->|Hw]%elem_of_cons.
        -- intros [->|Hin]%elem_of_cons; [done|].
           by apply (IH w0); [left|].
        -- apply IH. by right.
Qed.

Lemma split_head (sep c : char) (s : str) :
  c ≠ sep → ∃ w ws, split sep (c :: s) = (c :: w) :: ws.
Proof.
  intros Hc%N.eqb_neq. simpl. rewrite Hc.
  destruct (split sep s) as [|w ws]; by eauto.
Qed.

(** The first field of a non-blank line starts with a character that is
    not whitespace and has no space in it. *)
Lemma first_field_shape (l : str) :
  ¬ blank l →
  ∃ c t, first_field l = c :: t ∧ isspace c = false ∧ space ∉ first_field l.
Proof.
  unfold blank, first_field, fields. intros Hb.
  destruct (strip l) as [|c t] eqn:Hs; [done|].
  pose proof (strip_head _ _ _ Hs) as Hc.
  assert (c ≠ space) as Hne by (intros ->; by vm_compute in Hc).
  destruct (split_head space c t Hne) as (w & ws & Hsplit).
  exists c, w. unfold char, str in *. rewrite Hsplit. simpl.
  split_and!; [done|done|].
  apply (split_no_sep space (c :: t)). unfold char, str in *.
  rewrite Hsplit. by left.
Qed.

Lemma second_field_shape (l : str) : space ∉ second_field l.
Proof.
  unfold second_field, fields.
  destruct (split space (strip l) !! 1) as [w|] eqn:Hw; simpl.
  - apply (split_no_sep space (strip l)). by eapply list_elem_of_lookup_2.
  - apply not_elem_of_nil.
Qed.

End FieldFacts.

Section FieldExtras.
Import Py Tuples Spec Bert PyFacts ReaderFacts HandleFacts SentenceFacts
  FieldFacts.
Context `{SetOrder}.

(** X10.  Every word [handle] returns is non-empty, starts with a
    character that is not whitespace and contains no space; no label it
    returns contains a space. *)
Theorem handle_words_well_formed (d : gmap str nat) (fp : list str)
    (r : handle_out) :
  handle d fp = Ok r →
  Forall (Forall (λ w, ∃ c t, w = c :: t ∧ isspace c = false ∧ space ∉ w))
    (out_words r)
  ∧ Forall (Forall (λ t, space ∉ t)) (out_labels r).
Proof.
  intros Hh. apply handle_inv in Hh as (-> & -> & _). split.
  - apply group_Forall. split; [intros _; constructor|].
    apply Forall_forall. intros l _ Hb. by apply first_field_shape.
  - apply group_Forall. split; [intros _; constructor|].
    apply Forall_forall. intros l _ _. apply second_field_shape.
Qed.

End FieldExtras.

(* ===================================================================== *)
(** * From [handle] to the dataset                                        *)
(* ===================================================================== *)

Module CellFacts.
Import Py Tuples Spec Bert BertNerDataset Cells PyFacts EncodeFacts HandleFacts.

Lemma Tensor_long_rectangular (long_of : nat → Z) (n : nat)
    (data : list (list nat)) :
  Forall (λ r, length r = n) data →
  Tensor_long long_of data = Ok ((λ r : list nat, long_of <$> r) <$> data).
Proof.
  intros Hrows. destruct data as [|row rest]; [done|].
  apply Forall_cons in Hrows as [Hrow Hrest]. unfold Tensor_long.
  rewrite decide_True; [done|].
  eapply Forall_impl; [exact Hrest|]. intros r Hr. simpl in *. congruence.
Qed.

Lemma Tensor_long_ext (f g : nat → Z) (P : nat → Prop) (data : list (list nat)) :
  (∀ n, P n → f n = g n) →
  Forall (Forall P) data →
  Tensor_long f data = Tensor_long g data.
Proof.
  intros Hfg Hall. destruct data as [|row rest]; [done|]. unfold Tensor_long.
  destruct (decide (Forall (λ r, length r = length row) rest)); [|done].
  f_equal. apply Forall_fmap_ext.
  eapply Forall_impl; [exact Hall|]. intros r Hr. simpl.
  apply Forall_fmap_ext. eapply Forall_impl; [exact Hr|]. exact Hfg.
Qed.

(** The ids of an encoding are 0 or values of the table. *)
Lemma encoding_values (table : gmap str nat) (s : list str) (ids : list nat) :
  encoding table s ids →
  Forall (λ n, n = 0 ∨ ∃ k, table !! k = Some n) ids.
Proof.
  intros (toks & cls & sep & Htoks & Hcls & Hsep & ->).
  apply Forall_app. split; [apply Forall_singleton; by eauto|].
  apply Forall_app. split.
  { apply Forall_take. eapply Forall2_Forall_r; [exact Htoks|].
    apply Forall_forall. intros w _ t Ht. by eauto. }
  apply Forall_app. split.
  - apply Forall_replicate. by left.
  - apply Forall_singleton. by eauto.
Qed.

Lemma make_dataset_rectangular (long_of : nat → Z) (h : handle_out) :
  Forall (λ r, length r = max_seq_length) (Tuples.input_ids h) →
  Forall (λ r, length r = max_seq_length) (Tuples.label_ids h) →
  make_dataset long_of h =
  let ds :=
    __init__
      (take (Z.to_nat 8000)
         ((λ r : list nat, long_of <$> r) <$> Tuples.input_ids h))
      (take (Z.to_nat 8000)
         ((λ r : list nat, long_of <$> r) <$> Tuples.label_ids h)) in
  dl ← DataLoader_shuffled ds BATCH_SIZE; Ok (ds, dl).
Proof.
  intros Hin Hlb. unfold make_dataset.
  rewrite (Tensor_long_rectangular _ _ _ Hin).
  rewrite (Tensor_long_rectangular _ _ _ Hlb).
  reflexivity.
Qed.

Lemma DataLoader_shuffled_empty (ds : BertNerDataset.t) (size : nat) :
  __len__ ds = 0 → DataLoader_shuffled ds size = Raise ValueError.
Proof. intros Hn. unfold DataLoader_shuffled. by rewrite decide_True. Qed.

Lemma DataLoader_shuffled_Ok (ds : BertNerDataset.t) (size : nat) :
  __len__ ds ≠ 0 → size ≠ 0 →
  DataLoader_shuffled ds size = Ok (Build_DataLoader ds size).
Proof.
  intros Hn Hs. unfold DataLoader_shuffled.
  by rewrite !decide_False.
Qed.

Lemma row_lengths (table : gmap str nat) (ss : list (list str))
    (rows : list (list nat)) :
  Forall2 (encoding table) ss rows →
  Forall (λ r, length r = max_seq_length) rows.
Proof.
  intros Hall. eapply Forall2_Forall_r; [exact Hall|].
  apply Forall_forall. intros s _ ids. apply encoding_length.
Qed.

End CellFacts.

Section CellExtras.
Import Py Tuples Spec Bert BertNerDataset Cells PyFacts DictFacts VocabFacts
  ReaderFacts EncodeFacts HandleFacts CellFacts.
Context `{SetOrder}.

(** X11.  On what [handle] returns, the tensor cell raises nothing, and
    the dataset cell raises [ValueError], from the construction of the
    shuffling loader, when the file has no blank line.  When the file has a
    blank line the cells raise nothing: the loader holds the dataset and
    the batch size 8, the dataset has as many items as the file has blank
    lines, at most 8000, and for every index below its length
    [__getitem__] returns the converted rows of [input_ids] and
    [label_ids] at that index, each of [max_seq_length] elements. *)
Theorem dataset_of_handle (long_of : nat → Z) (d : gmap str nat)
    (fp : list str) (rh : handle_out) :
  handle d fp = Ok rh →
  (∃ input_ids label_ids,
     Tensor_long long_of (Tuples.input_ids rh) = Ok input_ids
     ∧ Tensor_long long_of (Tuples.label_ids rh) = Ok label_ids)
  ∧ (filter blank fp = [] → make_dataset long_of rh = Raise ValueError)
  ∧ (filter blank fp ≠ [] →
     ∃ ds dl, make_dataset long_of rh = Ok (ds, dl)
       ∧ dataset dl = ds ∧ batch_size dl = 8
       ∧ __len__ ds = length (filter blank fp) `min` Z.to_nat 8000
       ∧ ∀ i, i < __len__ ds →
           ∃ ids lids,
             Tuples.input_ids rh !! i = Some ids
             ∧ Tuples.label_ids rh !! i = Some lids
             ∧ length ids = max_seq_length ∧ length lids = max_seq_length
             ∧ __getitem__ ds (Z.of_nat i)
               = (Ok (long_of <$> ids, long_of <$> lids), ds)).
Proof.
  intros Hh.
  pose proof (handle_inv _ _ _ Hh) as (Hw & Hl & _ & _ & _ & Hin & Hlb).
  pose proof (row_lengths _ _ _ Hin) as Hin_len.
  pose proof (row_lengths _ _ _ Hlb) as Hlb_len.
  assert (length (Tuples.input_ids rh) = length (filter blank fp)) as Hn_in.
  { rewrite <- (Forall2_length _ _ _ Hin), Hw. apply ReaderFacts.group_length. }
  assert (length (Tuples.label_ids rh) = length (filter blank fp)) as Hn_lb.
  { rewrite <- (Forall2_length _ _ _ Hlb), Hl. apply ReaderFacts.group_length. }
  rewrite (make_dataset_rectangular _ _ Hin_len Hlb_len). cbv zeta.
  set (ds := __init__ _ _).
  assert (__len__ ds = length (filter blank fp) `min` Z.to_nat 8000) as Hlen.
  { unfold ds, __len__, __init__, len. cbn [BertNerDataset.input_ids].
    rewrite length_take, length_fmap, Hn_in. lia. }
  split_and!.
  - eexists. eexists.
    split; by eapply Tensor_long_rectangular.
  - intros Hnone. rewrite DataLoader_shuffled_empty; [done|].
    by rewrite Hlen, Hnone.
  - intros Hsome.
    assert (0 < length (filter blank fp)) as Hpos.
    { destruct (filter blank fp); [done | simpl; lia]. }
    rewrite DataLoader_shuffled_Ok; [|rewrite Hlen; lia|done].
    exists ds, (Build_DataLoader ds BATCH_SIZE).
    split_and!; [done|done|done|done|].
    intros i Hi. rewrite Hlen in Hi.
    destruct (lookup_lt_is_Some_2 (Tuples.input_ids rh) i) as [ids Hids]; [lia|].
    destruct (lookup_lt_is_Some_2 (Tuples.label_ids rh) i) as [lids Hlids]; [lia|].
    exists ids, lids. split_and!; try done.
    + by eapply Forall_lookup in Hin_len.
    + by eapply Forall_lookup in Hlb_len.
    + unfold __getitem__, ds, __init__.
      cbn [BertNerDataset.input_ids BertNerDataset.label_ids].
      f_equal. apply bind_Ok. exists (long_of <$> ids). split.
      { apply select_row_in_range. unfold tensor2.
        rewrite lookup_take_lt by lia. by rewrite list_lookup_fmap, Hids. }
      apply bind_Ok. exists (long_of <$> lids). split; [|done].
      apply select_row_in_range. unfold tensor2.
      rewrite lookup_take_lt by lia. by rewrite list_lookup_fmap, Hlids.
Qed.

(** X12.  When the conversion through 32-bit floats is exact up to 2^24
    and the vocabulary and the label set have at most 2^24 members, the
    dataset holds the ids [handle] computed, unchanged. *)
Theorem dataset_ids_exact (long_of : nat → Z) (vocab_txt train_txt fp : list str)
    (rv : vocab_out) (rh : handle_out) :
  (∀ n, (Z.of_nat n ≤ 2 ^ 24)%Z → long_of n = Z.of_nat n) →
  readVocab vocab_txt train_txt = Ok rv →
  handle (vocab2id rv) fp = Ok rh →
  (Z.of_nat (vocab_size rv) ≤ 2 ^ 24)%Z →
  (Z.of_nat (label_size rh) ≤ 2 ^ 24)%Z →
  make_dataset long_of rh = make_dataset Z.of_nat rh.
Proof.
  intros Hexact Hv Hh Hvs Hls.
  pose proof (readVocab_dense _ _ _ Hv) as (_ & Hvsize & _ & _ & Hvrange).
  pose proof (handle_label_dense _ _ _ Hh) as (_ & Hlsize & _ & _ & Hlrange).
  pose proof (handle_inv _ _ _ Hh) as (_ & _ & Hll & _ & Hlsz & Hin & Hlb).
  assert (vocab_size rv = size (dom (vocab2id rv))) as Hvs'.
  { rewrite readVocab_eq in Hv. injection Hv as <-. simpl in *. by rewrite Hvsize. }
  assert (label_size rh = size (dom (label2id rh))) as Hls'.
  { rewrite Hlsz, Hlsize. by rewrite Hll. }
  assert (Forall (Forall (λ n, (Z.of_nat n ≤ 2 ^ 24)%Z)) (Tuples.input_ids rh))
    as Hin_small.
  { eapply Forall2_Forall_r; [exact Hin|].
    apply Forall_forall. intros s _ ids Henc.
    eapply Forall_impl; [exact (encoding_values _ _ _ Henc)|].
    intros n [->|[k Hk]]; [lia|].
    assert (1 ≤ n ≤ size (dom (vocab2id rv))) by (apply Hvrange; by eauto). lia. }
  assert (Forall (Forall (λ n, (Z.of_nat n ≤ 2 ^ 24)%Z)) (Tuples.label_ids rh))
    as Hlb_small.
  { eapply Forall2_Forall_r; [exact Hlb|].
    apply Forall_forall. intros s _ ids Henc.
    eapply Forall_impl; [exact (encoding_values _ _ _ Henc)|].
    intros n [->|[k Hk]]; [lia|].
    assert (1 ≤ n ≤ size (dom (label2id rh))) by (apply Hlrange; by eauto). lia. }
  unfold make_dataset.
  rewrite (Tensor_long_ext long_of Z.of_nat _ _ Hexact Hin_small).
  by rewrite (Tensor_long_ext long_of Z.of_nat _ _ Hexact Hlb_small).
Qed.

End CellExtras.

(* ===================================================================== *)
(** * The training cells                                                  *)
(* ===================================================================== *)

Module TrainingFacts.
Import Py Torch Training ModelSpec.

Section Monad.
Context `{Library}.

Lemma torch_bind_Ok {A B} (m : torch A) (f : A → torch B) g b g' :
  (m ≫= f) g = Ok (b, g') ↔ ∃ a g1, m g = Ok (a, g1) ∧ f a g1 = Ok (b, g').
Proof.
  unfold mbind, torch_bind. destruct (m g) as [[a g1]|e]; split.
  - by eauto.
  - by intros (a' & g1' & [= <- <-] & Hf).
  - discriminate.
  - by intros (a' & g1' & [=] & _).
Qed.

Lemma torch_bind_raises {A B} (m : torch A) (f : A → torch B) g :
  raises m g → raises (m ≫= f) g.
Proof.
  intros [e He]. exists e. unfold mbind, torch_bind. by rewrite He.
Qed.

Lemma lift_Ok {A} (m : result A) g a g' :
  lift m g = Ok (a, g') ↔ m = Ok a ∧ g' = g.
Proof.
  unfold lift. destruct m; split; [by intros [= <- <-] | by intros [[= <-] ->]
                                   | discriminate | by intros [[=] _]].
Qed.

End Monad.

(** The labels of a table after one more [loc_set]. *)
Lemma loc_set_new `{Types} (df : frame) (r : Z) (v : value) :
  r ∉ df.*1 → (loc_set df r v).*1 = df.*1 ++ [r].
Proof.
  induction df as [|[r' v'] df IH]; simpl; [done|].
  intros Hr. apply not_elem_of_cons in Hr as [Hne Hr].
  destruct (decide (r' = r)); [done|]. simpl. f_equal. by apply IH.
Qed.

Lemma not_elem_of_labels (a k : nat) :
  Z.of_nat (a + k) ∉ Z.of_nat <$> seq a k.
Proof.
  intros (j & Hj & Hin)%list_elem_of_fmap. apply elem_of_seq in Hin. lia.
Qed.

Lemma labels_snoc (a k : nat) :
  (Z.of_nat <$> seq a k) ++ [Z.of_nat (a + k)] = Z.of_nat <$> seq a (S k).
Proof. by rewrite seq_S, fmap_app. Qed.

End TrainingFacts.

Section BertTrainingExtras.
Import Py Torch Training ModelSpec TrainingFacts BertTraining.
Context `{Library} `{!Trainer model}.

(** One training step adds the row of its step when the step number is a
    multiple of ten, and no row otherwise. *)
Lemma bert_train_step_labels (index : nat) (m : model) (opt : Optimizer)
    (k : nat) (batch : value * value) (df df' : frame) g g' :
  df.*1 = Z.of_nat <$> seq 0 (k / 10) →
  train_step index m opt 0 df (k, batch) g = Ok (df', g') →
  df'.*1 = Z.of_nat <$> seq 0 (S k / 10).
Proof.
  intros Hdf. unfold train_step. destruct batch as [x t].
  pose proof (Nat.div_mod_eq k 10) as Hk.
  pose proof (Nat.mod_upper_bound k 10) as Hk10.
  pose proof (Nat.div_mod_eq (S k) 10) as HSk.
  pose proof (Nat.mod_upper_bound (S k) 10) as HSk10.
  replace (k + 1) with (S k) by lia.
  set (row := (Z.of_nat ((0 + 1) * (S k / 10)) - 1)%Z).
  assert (0 = S k mod 10 → S k / 10 = S (k / 10) ∧ row = Z.of_nat (0 + k / 10))
    as Hlogged.
  { intros Hten.
    assert (S k / 10 = S (k / 10)) as Hq.
    { symmetry. apply (Nat.div_unique (S k) 10 (S (k / 10)) 0); lia. }
    split; [done|]. unfold row. rewrite Hq. lia. }
  assert (0 ≠ S k mod 10 → S k / 10 = k / 10) as Hskipped.
  { intros Hten.
    symmetry. apply (Nat.div_unique (S k) 10 (k / 10) (S (k mod 10))); lia. }
  clearbody row.
  intros (loss & g1 & _ & Hrest)%torch_bind_Ok.
  apply torch_bind_Ok in Hrest as (df1 & g2 & Hlog & Hrest).
  apply torch_bind_Ok in Hrest as (? & g3 & _ & Hrest).
  apply torch_bind_Ok in Hrest as (? & g4 & _ & Hrest).
  apply torch_bind_Ok in Hrest as (? & g5 & _ & [= <- <-]).
  destruct (decide (0 = S k mod 10)) as [Hten|Hten].
  - apply torch_bind_Ok in Hlog as (name & ? & _ & Hlog).
    apply torch_bind_Ok in Hlog as (v & ? & _ & Hlog).
    apply torch_bind_Ok in Hlog as (? & ? & _ & Hlog).
    apply torch_bind_Ok in Hlog as (? & ? & _ & [= <- <-]).
    destruct (Hlogged Hten) as [Hq ->].
    rewrite loc_set_new; rewrite Hdf.
    + rewrite Hq. apply (labels_snoc 0 (k / 10)).
    + apply (not_elem_of_labels 0 (k / 10)).
  - injection Hlog as <- <-. rewrite Hdf. by rewrite (Hskipped Hten).
Qed.

Lemma bert_epoch_labels_from (index : nat) (m : model) (opt : Optimizer)
    (bs : list (value * value)) (k : nat) (df df' : frame) g g' :
  df.*1 = Z.of_nat <$> seq 0 (k / 10) →
  for_in (train_step index m opt 0) df (imap (λ i, pair (k + i)) bs) g
  = Ok (df', g') →
  df'.*1 = Z.of_nat <$> seq 0 ((k + length bs) / 10).
Proof.
  revert k df g. induction bs as [|b bs IH]; intros k df g Hdf; simpl.
  - intros [= <- <-]. by rewrite Nat.add_0_r.
  - intros (df1 & g1 & Hstep & Hrest)%torch_bind_Ok.
    rewrite Nat.add_0_r in Hstep.
    apply (bert_train_step_labels _ _ _ _ _ _ _ _ _ Hdf) in Hstep.
    replace (k + S (length bs)) with (S k + length bs) by lia.
    apply (IH (S k) df1 g1 Hstep).
    erewrite imap_ext; [exact Hrest|].
    intros i x _. simpl. f_equal. lia.
Qed.

(** X14.  In the BERT notebook, the pass over the loader of epoch 0,
    started with an empty loss table, leaves a table whose rows are
    labelled 0, 1, ..., in this order, one row for every ten batches of
    the pass. *)
Theorem bert_epoch_rows (index : nat) (m : model) (opt : Optimizer)
    (dataloader : DataLoader) (df : frame) g g' :
  train_epoch index m opt dataloader [] 0 g = Ok (df, g') →
  ∃ bs g1, batches dataloader g = Ok (bs, g1)
    ∧ df.*1 = Z.of_nat <$> seq 0 (length bs / 10).
Proof.
  unfold train_epoch. intros (bs & g1 & Hbs & Hloop)%torch_bind_Ok.
  exists bs, g1. split; [done|].
  apply (bert_epoch_labels_from index m opt bs 0 [] df g1 g'); [done|].
  exact Hloop.
Qed.

Lemma bert_train_model_skip (dataloader : DataLoader)
    (files : list (str * frame)) (index : nat) (m : model) g :
  index ≠ 2 → train_model dataloader files (index, m) g = Ok (files, g).
Proof. intros Hne. unfold train_model. by rewrite decide_True. Qed.

Lemma bert_skip_from (dataloader : DataLoader) (files : list (str * frame))
    (ms : list model) (k : nat) g :
  2 < k →
  for_in (train_model dataloader) files (imap (λ i, pair (k + i)) ms) g
  = Ok (files, g).
Proof.
  revert k. induction ms as [|m ms IH]; intros k Hk; [done|].
  rewrite imap_cons. cbn [for_in]. unfold mbind, torch_bind.
  rewrite bert_train_model_skip by lia.
  erewrite imap_ext; [apply (IH (S k)); lia|].
  intros i x _. simpl. f_equal. lia.
Qed.

(** X15.  The training cell of the BERT notebook does what training the
    third model of [modelList] alone does: the other models are skipped,
    without any call to the library, and with fewer than three models the
    cell does nothing. *)
Theorem bert_trains_third_only (modelList : list model)
    (dataloader : DataLoader) g :
  training_cell modelList dataloader g =
  match modelList !! 2 with
  | Some m => train_model dataloader [] (2, m) g
  | None => Ok ([], g)
  end.
Proof.
  unfold training_cell, enumerate.
  destruct modelList as [|m0 [|m1 [|m2 rest]]]; cbn [lookup list_lookup].
  - reflexivity.
  - cbn [imap for_in]. unfold mbind, torch_bind.
    by rewrite bert_train_model_skip by lia.
  - cbn [imap for_in]. unfold mbind, torch_bind.
    rewrite bert_train_model_skip by lia. unfold compose.
    by rewrite bert_train_model_skip by lia.
  - rewrite !imap_cons. cbn [for_in]. unfold mbind, torch_bind.
    rewrite bert_train_model_skip by lia. unfold compose.
    rewrite bert_train_model_skip by lia.
    destruct (train_model dataloader [] (2, m2) g) as [[files g1]|e]; [|done].
    erewrite imap_ext; [apply (bert_skip_from dataloader files rest 3); lia|].
    intros i x _. reflexivity.
Qed.

End BertTrainingExtras.

Section AlBertTrainingExtras.
Import Py Torch Training ModelSpec TrainingFacts AlBertTraining.
Context `{Library} `{!Trainer model}.

Lemma albert_train_step_labels (index : nat) (m : model) (opt : Optimizer)
    (k : nat) (batch : value * value) (df df' : frame) g g' :
  df.*1 = Z.of_nat <$> seq 1 (k / 10) →
  train_step index m opt 0 df (k, batch) g = Ok (df', g') →
  df'.*1 = Z.of_nat <$> seq 1 (S k / 10).
Proof.
  intros Hdf. unfold train_step. destruct batch as [x t].
  pose proof (Nat.div_mod_eq k 10) as Hk.
  pose proof (Nat.mod_upper_bound k 10) as Hk10.
  pose proof (Nat.div_mod_eq (S k) 10) as HSk.
  pose proof (Nat.mod_upper_bound (S k) 10) as HSk10.
  replace (k + 1) with (S k) by lia.
  set (row := Z.of_nat ((0 + 1) * (S k / 10))).
  assert (0 = S k mod 10 → S k / 10 = S (k / 10) ∧ row = Z.of_nat (1 + k / 10))
    as Hlogged.
  { intros Hten.
    assert (S k / 10 = S (k / 10)) as Hq.
    { symmetry. apply (Nat.div_unique (S k) 10 (S (k / 10)) 0); lia. }
    split; [done|]. unfold row. rewrite Hq. lia. }
  assert (0 ≠ S k mod 10 → S k / 10 = k / 10) as Hskipped.
  { intros Hten.
    symmetry. apply (Nat.div_unique (S k) 10 (k / 10) (S (k mod 10))); lia. }
  clearbody row.
  intros (loss & g1 & _ & Hrest)%torch_bind_Ok.
  apply torch_bind_Ok in Hrest as (df1 & g2 & Hlog & Hrest).
  apply torch_bind_Ok in Hrest as (? & g3 & _ & Hrest).
  apply torch_bind_Ok in Hrest as (? & g4 & _ & Hrest).
  apply torch_bind_Ok in Hrest as (? & g5 & _ & [= <- <-]).
  destruct (decide (0 = S k mod 10)) as [Hten|Hten].
  - apply torch_bind_Ok in Hlog as (name & ? & _ & Hlog).
    apply torch_bind_Ok in Hlog as (v & ? & _ & Hlog).
    apply torch_bind_Ok in Hlog as (? & ? & _ & Hlog).
    apply torch_bind_Ok in Hlog as (? & ? & _ & [= <- <-]).
    destruct (Hlogged Hten) as [Hq ->].
    rewrite loc_set_new; rewrite Hdf.
    + rewrite Hq. apply (labels_snoc 1 (k / 10)).
    + apply (not_elem_of_labels 1 (k / 10)).
  - injection Hlog as <- <-. rewrite Hdf. by rewrite (Hskipped Hten).
Qed.

Lemma albert_epoch_labels_from (index : nat) (m : model) (opt : Optimizer)
    (bs : list (value * value)) (k : nat) (df df' : frame) g g' :
  df.*1 = Z.of_nat <$> seq 1 (k / 10) →
  for_in (train_step index m opt 0) df (imap (λ i, pair (k + i)) bs) g
  = Ok (df', g') →
  df'.*1 = Z.of_nat <$> seq 1 ((k + length bs) / 10).
Proof.
  revert k df g. induction bs as [|b bs IH]; intros k df g Hdf; simpl.
  - intros [= <- <-]. by rewrite Nat.add_0_r.
  - intros (df1 & g1 & Hstep & Hrest)%torch_bind_Ok.
    rewrite Nat.add_0_r in Hstep.
    apply (albert_train_step_labels _ _ _ _ _ _ _ _ _ Hdf) in Hstep.
    replace (k + S (length bs)) with (S k + length bs) by lia.
    apply (IH (S k) df1 g1 Hstep).
    erewrite imap_ext; [exact Hrest|].
    intros i x _. simpl. f_equal. lia.
Qed.

(** X16.  In the ALBERT notebook, the pass over the loader of epoch 0,
    started with an empty loss table, leaves a table whose rows are
    labelled 1, 2, ..., in this order, one row for every ten batches of
    the pass; no row is labelled 0. *)
Theorem albert_epoch_rows (index : nat) (m : model) (opt : Optimizer)
    (dataloader : DataLoader) (df : frame) g g' :
  train_epoch index m opt dataloader [] 0 g = Ok (df, g') →
  ∃ bs g1, batches dataloader g = Ok (bs, g1)
    ∧ df.*1 = Z.of_nat <$> seq 1 (length bs / 10).
Proof.
  unfold train_epoch. intros (bs & g1 & Hbs & Hloop)%torch_bind_Ok.
  exists bs, g1. split; [done|].
  apply (albert_epoch_labels_from index m opt bs 0 [] df g1 g'); [done|].
  exact Hloop.
Qed.

(** The self-attention class of [albert-ner.ipynb] raises when the encoder
    returns a tuple and the GRU layer raises on a tuple. *)
Lemma albert_attention_call_raises
    (m : AlBert.AlBertBiGRUSelfAttentionCRFNer.t) (x tags : value) g :
  (∀ a x g, ∃ items g', AlbertModel_call a x g = Ok (VTuple items, g')) →
  (∀ a items g, raises (GRU_call a (VTuple items)) g) →
  raises (call (BiGRUSelfAttentionCRFNer m) x tags) g.
Proof.
  intros Halbert Hgru. unfold raises, call,
    AlBert.AlBertBiGRUSelfAttentionCRFNer.forward.
  destruct (Halbert (AlBert.AlBertBiGRUSelfAttentionCRFNer.albert m) x g)
    as (items & g1 & Hy).
  destruct (Hgru (AlBert.AlBertBiGRUSelfAttentionCRFNer.bigru m) items g1)
    as (e & He).
  exists e. unfold mbind, torch_bind. by rewrite Hy, He.
Qed.

Lemma for_in_raises_later {S A} (body : S → A → torch S) (st : S)
    (xs ys : list A) g :
  (∀ st' g', raises (for_in body st' ys) g') →
  raises (for_in body st (xs ++ ys)) g.
Proof.
  intros Hys. revert st g. induction xs as [|x xs IH]; intros st g; simpl.
  - apply Hys.
  - unfold raises, mbind, torch_bind.
    destruct (body st x g) as [[st1 g1]|e]; [apply IH | by exists e].
Qed.

(** X17.  The training cell of [albert-ner.ipynb] cannot complete: its
    fourth model is the self-attention class that passes the encoder's
    tuple to the GRU layer, so, when the encoder returns a tuple, the GRU
    layer raises on a tuple and a pass over the loader has at least one
    batch, the cell raises, at the first batch of the fourth model if
    not before. *)
Theorem albert_training_cell_raises
    (m0 : AlBert.AlBertCRFNer.t) (m1 : AlBert.AlBertBiLSTMCRFNer.t)
    (m2 : AlBert.AlBertBiGRUCRFNer.t)
    (m3 : AlBert.AlBertBiGRUSelfAttentionCRFNer.t)
    (dataloader : DataLoader) g :
  (∀ a x g, ∃ items g', AlbertModel_call a x g = Ok (VTuple items, g')) →
  (∀ a items g, raises (GRU_call a (VTuple items)) g) →
  (∀ g bs g', batches dataloader g = Ok (bs, g') → bs ≠ []) →
  raises
    (training_cell
       [CRFNer m0; BiLSTMCRFNer m1; BiGRUCRFNer m2; BiGRUSelfAttentionCRFNer m3]
       dataloader) g.
Proof.
  intros Halbert Hgru Hbatches. unfold training_cell, enumerate.
  change (imap pair
            [CRFNer m0; BiLSTMCRFNer m1; BiGRUCRFNer m2;
             BiGRUSelfAttentionCRFNer m3])
    with ([(0, CRFNer m0); (1, BiLSTMCRFNer m1); (2, BiGRUCRFNer m2)]
          ++ [(3, BiGRUSelfAttentionCRFNer m3)]).
  apply for_in_raises_later. clear g. intros files g.
  cbn [for_in]. apply torch_bind_raises. unfold train_model.
  unfold raises, mbind, torch_bind.
  destruct (Adam (BiGRUSelfAttentionCRFNer m3) g) as [[opt g1]|e];
    [|by exists e].
  change (seq 0 EPOCH) with [0]. cbn [for_in].
  unfold train_epoch at 1. unfold mbind, torch_bind.
  destruct (batches dataloader g1) as [[bs g2]|e] eqn:Hbs; [|by exists e].
  destruct bs as [|[x t] bs]; [by destruct (Hbatches _ _ _ Hbs)|].
  unfold enumerate. rewrite imap_cons. cbn [for_in].
  unfold mbind, torch_bind. unfold train_step at 1.
  unfold mbind, torch_bind.
  destruct (albert_attention_call_raises m3 x t g2 Halbert Hgru) as [e He].
  rewrite He. by exists e.
Qed.

End AlBertTrainingExtras.

(* ===================================================================== *)
(** * The further properties at the sample inputs                         *)
(* ===================================================================== *)

Lemma sample_vocab_eq :
  Bert.readVocab (H:=Py.insertion_order) Examples.vocab_txt Examples.train_txt
  = Py.Ok Samples.sample_vocab.
Proof. vm_compute. reflexivity. Qed.

Lemma sample_handle_eq :
  Bert.handle (H:=Py.insertion_order)
    (Tuples.vocab2id Samples.sample_vocab) Examples.train_txt
  = Py.Ok Samples.sample_handle.
Proof. vm_compute. reflexivity. Qed.

Lemma handle_tables_inverse_witness :
  Tuples.label2id Samples.sample_handle !! Py.py "B-X" = Some 4
  ↔ Tuples.id2label Samples.sample_handle !! 4 = Some (Py.py "B-X").
Proof.
  apply (@handle_tables_inverse Py.insertion_order
           (Tuples.vocab2id Samples.sample_vocab) Examples.train_txt).
  vm_compute. reflexivity.
Defined.

Lemma handle_words_labels_aligned_witness :
  Forall2 (λ ws ls, length ws = length ls)
    (Tuples.out_words Samples.sample_handle)
    (Tuples.out_labels Samples.sample_handle).
Proof.
  apply (@handle_words_labels_aligned Py.insertion_order
           (Tuples.vocab2id Samples.sample_vocab) Examples.train_txt).
  vm_compute. reflexivity.
Defined.

Lemma handle_label_keys_witness :
  Tuples.label_size Samples.sample_handle
  = size (dom (Tuples.label2id Samples.sample_handle))
  ∧ 2 ≤ Tuples.label_size Samples.sample_handle.
Proof.
  apply (@handle_label_keys Py.insertion_order
           (Tuples.vocab2id Samples.sample_vocab) Examples.train_txt).
  vm_compute. reflexivity.
Defined.

Lemma handle_raises_witness :
  Bert.handle (H:=Py.insertion_order) ∅ [Spec.line "a"] = Py.Raise Py.IndexError.
Proof.
  apply (@handle_raises Py.insertion_order ∅ [Spec.line "a"]).
  apply Exists_cons_hd. split.
  - vm_compute. discriminate.
  - vm_compute. lia.
Defined.

Lemma pipeline_returns_witness :
  Py.returns
    (Bert.handle (H:=Py.insertion_order)
       (Tuples.vocab2id Samples.sample_vocab) Examples.train_txt).
Proof.
  destruct (@pipeline_returns Py.insertion_order
              Examples.vocab_txt Examples.train_txt) as (rv & Hrv & Hiff).
  - apply (bool_decide_unpack _). vm_compute. exact I.
  - apply (bool_decide_unpack _). vm_compute. exact I.
  - rewrite sample_vocab_eq in Hrv. injection Hrv as <-.
    apply Hiff. apply (bool_decide_unpack _). vm_compute. exact I.
Defined.

Lemma decode_round_trip_witness :
  ∃ i, default [] (Tuples.input_ids Samples.sample_handle !! 0) !! 2 = Some i
       ∧ Tuples.id2vocab Samples.sample_vocab !! i = Some (Py.py "b").
Proof.
  destruct (@decode_round_trip Py.insertion_order
              Examples.vocab_txt Examples.train_txt Examples.train_txt
              Samples.sample_vocab Samples.sample_handle
              sample_vocab_eq sample_handle_eq) as [Hwords _].
  destruct (Hwords 0 [Py.py "a"; Py.py "b"]
              (default [] (Tuples.input_ids Samples.sample_handle !! 0))
              1 (Py.py "b")) as (i & Hi & Hw).
  - vm_compute. reflexivity.
  - vm_compute. reflexivity.
  - reflexivity.
  - vm_compute. lia.
  - exists i. split; [exact Hi | exact Hw].
Defined.

Lemma padding_aligned_witness :
  default [] (Tuples.input_ids Samples.sample_handle !! 0) !! 3 = Some 0
  ↔ default [] (Tuples.label_ids Samples.sample_handle !! 0) !! 3 = Some 0.
Proof.
  apply (@padding_aligned Py.insertion_order
           Examples.vocab_txt Examples.train_txt Examples.train_txt
           Samples.sample_vocab Samples.sample_handle 0).
  - exact sample_vocab_eq.
  - exact sample_handle_eq.
  - vm_compute. reflexivity.
  - vm_compute. reflexivity.
Defined.

Lemma long_handle_eq :
  Bert.handle (H:=Py.insertion_order)
    (Tuples.vocab2id Samples.sample_vocab) Samples.long_txt
  = Py.Ok Samples.long_handle.
Proof. vm_compute. reflexivity. Qed.

(** Two sentences of 201 words, the last word "b" in one and "c" in the
    other, have the same row of [input_ids]. *)
Lemma truncation_collision_witness :
  Tuples.out_words Samples.long_handle !! 0
    = Some (replicate 200 (Py.py "a") ++ [Py.py "b"])
  ∧ Tuples.out_words Samples.long_handle !! 1
    = Some (replicate 200 (Py.py "a") ++ [Py.py "c"])
  ∧ Tuples.vocab2id Samples.sample_vocab !! Py.py "b"
    ≠ Tuples.vocab2id Samples.sample_vocab !! Py.py "c"
  ∧ default [] (Tuples.input_ids Samples.long_handle !! 0)
    = default [] (Tuples.input_ids Samples.long_handle !! 1).
Proof.
  split; [vm_compute; reflexivity|].
  split; [vm_compute; reflexivity|].
  split; [vm_compute; discriminate|].
  apply (@truncation_collision Py.insertion_order
           (Tuples.vocab2id Samples.sample_vocab) Samples.long_txt
           Samples.long_handle 0 1
           (replicate 200 (Py.py "a") ++ [Py.py "b"])
           (replicate 200 (Py.py "a") ++ [Py.py "c"])).
  - exact long_handle_eq.
  - vm_compute. reflexivity.
  - vm_compute. reflexivity.
  - vm_compute. reflexivity.
  - vm_compute. reflexivity.
  - vm_compute. reflexivity.
Defined.

Lemma handle_words_well_formed_witness :
  Forall (Forall (λ t, Py.space ∉ t)) (Tuples.out_labels Samples.sample_handle).
Proof.
  apply (@handle_words_well_formed Py.insertion_order
           (Tuples.vocab2id Samples.sample_vocab) Examples.train_txt).
  exact sample_handle_eq.
Defined.

Lemma dataset_of_handle_witness :
  Cells.make_dataset Z.of_nat Samples.open_handle = Py.Raise Py.ValueError
  ∧ ∃ ds dl, Cells.make_dataset Z.of_nat Samples.sample_handle = Py.Ok (ds, dl)
      ∧ BertNerDataset.__len__ ds = 2.
Proof.
  split.
  - apply (@dataset_of_handle Py.insertion_order Z.of_nat
             (Tuples.vocab2id Samples.sample_vocab) Samples.open_txt
             Samples.open_handle).
    + vm_compute. reflexivity.
    + vm_compute. reflexivity.
  - destruct (@dataset_of_handle Py.insertion_order Z.of_nat
                (Tuples.vocab2id Samples.sample_vocab) Examples.train_txt
                Samples.sample_handle sample_handle_eq)
      as (_ & _ & Hsome).
    destruct Hsome as (ds & dl & Hds & _ & _ & Hlen & _).
    + vm_compute. discriminate.
    + exists ds, dl. split; [exact Hds|]. rewrite Hlen. vm_compute. reflexivity.
Defined.

Lemma dataset_ids_exact_witness :
  Cells.make_dataset (λ n, Z.of_nat n `min` 2 ^ 24)%Z Samples.sample_handle
  = Cells.make_dataset Z.of_nat Samples.sample_handle.
Proof.
  apply (@dataset_ids_exact Py.insertion_order
           (λ n, Z.of_nat n `min` 2 ^ 24)%Z
           Examples.vocab_txt Examples.train_txt Examples.train_txt
           Samples.sample_vocab Samples.sample_handle).
  - intros n Hn. lia.
  - exact sample_vocab_eq.
  - exact sample_handle_eq.
  - vm_compute. discriminate.
  - vm_compute. discriminate.
Defined.

Lemma bert_epoch_rows_witness :
  ∃ df g',
    BertTraining.train_epoch (H0:=ModelSpec.toy)
      (Trainer0:=ToyTraining.toy_trainer _)
      2 ToyTraining.toy_bigru () ToyTraining.toy_loader [] 0 0 = Py.Ok (df, g')
    ∧ df.*1 = [0; 1]%Z.
Proof.
  eexists. eexists. split; [vm_compute; reflexivity|].
  destruct (@bert_epoch_rows ModelSpec.toy_types ModelSpec.toy
              (ToyTraining.toy_trainer _)
              2 ToyTraining.toy_bigru () ToyTraining.toy_loader _ 0 _
              eq_refl) as (bs & g1 & Hbs & Hrows).
  injection Hbs as <- <-. exact Hrows.
Defined.

Lemma albert_epoch_rows_witness :
  ∃ df g',
    AlBertTraining.train_epoch (H0:=ModelSpec.toy)
      (Trainer0:=ToyTraining.toy_trainer _)
      0 ToyTraining.toy_albert_crf () ToyTraining.toy_loader [] 0 0
    = Py.Ok (df, g')
    ∧ df.*1 = [1; 2]%Z.
Proof.
  eexists. eexists. split; [vm_compute; reflexivity|].
  destruct (@albert_epoch_rows ModelSpec.toy_types ModelSpec.toy
              (ToyTraining.toy_trainer _)
              0 ToyTraining.toy_albert_crf () ToyTraining.toy_loader _ 0 _
              eq_refl) as (bs & g1 & Hbs & Hrows).
  injection Hbs as <- <-. exact Hrows.
Defined.

Lemma albert_training_cell_raises_witness :
  ModelSpec.raises
    (AlBertTraining.training_cell (H0:=ModelSpec.toy)
       (Trainer0:=ToyTraining.toy_trainer _)
       ToyTraining.toy_albert_list ToyTraining.toy_loader) 0.
Proof.
  apply (@albert_training_cell_raises ModelSpec.toy_types ModelSpec.toy
           (ToyTraining.toy_trainer _)).
  - intros a x g. by exists [x; x], g.
  - intros a items g. by exists Py.AttributeError.
  - intros g bs g' [= <- _]. discriminate.
Defined.

Section VocabExtras.
Import Py Tuples Spec Bert PyFacts VocabFacts FieldFacts PipelineFacts.
Context `{SetOrder}.

(** X18.  Blank lines are skipped in the training file but not in the
    vocabulary file: the empty string is a key of [vocab2id] exactly when
    the vocabulary file has a blank line. *)
Theorem readVocab_empty_key (vocab_txt train_txt : list str) :
  ∃ rv, readVocab vocab_txt train_txt = Ok rv
    ∧ (is_Some (vocab2id rv !! []) ↔ Exists blank vocab_txt).
Proof.
  eexists. split; [apply readVocab_eq|].
  rewrite (readVocab_keys _ _ _ _ (readVocab_eq vocab_txt train_txt)).
  unfold collected. rewrite elem_of_app, !list_elem_of_fmap, Exists_exists.
  split.
  - intros [(l & Hl & Hin)|(l & Hl & Hin)].
    + exists l. by split.
    + apply list_elem_of_filter in Hin as [Hb _].
      destruct (first_field_shape l Hb) as (c & t & Hf & _). congruence.
  - intros (l & Hin & Hb). left. exists l. by split.
Qed.

End VocabExtras.
